(** * Library panels: the persistence layer of [pkg/services/librarypanels]

    A shallow embedding of [database.go].  The Go functions run callbacks
    against an xorm session inside a scope opened on the SQL store; here a
    session is a small state-and-error monad over
    - the storage engine's state (abstract: any instance of [Engine]),
    - a journal of the scopes opened and the statements issued, and
    - the variable the Go closure captures from the enclosing function.

    The functions are written once, against the [Engine] interface.  An
    in-memory instance ([MemDB]) gives the two tables the meaning the
    specification describes, and a fault-injecting wrapper ([Flaky]) lets a
    statement fail the way a driver can. *)

From Stdlib Require Import ZArith List String Bool Lia.
Import ListNotations.
Local Open Scope string_scope.
Local Open Scope list_scope.
Local Open Scope Z_scope.

(** ** Data model *)

(** [time.Time], kept as an instant on an integer time line. *)
Definition Time := Z.

(** [json.RawMessage]: a byte slice; [None] is the nil slice. *)
Definition RawMessage := option string.

(** Modelled from the spec: the [LibraryPanel] struct is declared outside
    [database.go]; its fields are the ones the struct literals of
    [createLibraryPanel] and [patchLibraryPanel] set (internal key, UID,
    organization id, folder id, name, model, timestamps and actors). *)
Module LibraryPanel.
Record t := mk {
  ID : Z;
  OrgID : Z;
  FolderID : Z;
  UID : string;
  Name : string;
  Model : RawMessage;
  Created : Time;
  Updated : Time;
  CreatedBy : Z;
  UpdatedBy : Z
}.

(** The zero value [LibraryPanel{}]. *)
Definition zero : t := mk 0 0 0 EmptyString EmptyString None 0 0 0 0.

(** [p.ID = id], the write-back of the storage-assigned key. *)
Definition with_ID (id : Z) (p : t) : t :=
  mk id (OrgID p) (FolderID p) (UID p) (Name p) (Model p)
     (Created p) (Updated p) (CreatedBy p) (UpdatedBy p).

Definition with_FolderID (v : Z) (p : t) : t :=
  mk (ID p) (OrgID p) v (UID p) (Name p) (Model p)
     (Created p) (Updated p) (CreatedBy p) (UpdatedBy p).

Definition with_Name (v : string) (p : t) : t :=
  mk (ID p) (OrgID p) (FolderID p) (UID p) v (Model p)
     (Created p) (Updated p) (CreatedBy p) (UpdatedBy p).

Definition with_Model (v : RawMessage) (p : t) : t :=
  mk (ID p) (OrgID p) (FolderID p) (UID p) (Name p) v
     (Created p) (Updated p) (CreatedBy p) (UpdatedBy p).
End LibraryPanel.

(** Modelled from the spec: the [libraryPanelDashboard] struct (a connection
    row) is declared outside [database.go]; its fields are the ones the
    struct literal of [connectDashboard] sets. *)
Module libraryPanelDashboard.
Record t := mk {
  DashboardID : Z;
  LibraryPanelID : Z;
  Created : Time;
  CreatedBy : Z
}.
End libraryPanelDashboard.

(** Modelled from the spec: the two command structs are declared outside
    [database.go]; both carry folder id, name and model. *)
Module createLibraryPanelCommand.
Record t := mk { FolderID : Z; Name : string; Model : RawMessage }.
End createLibraryPanelCommand.

Module patchLibraryPanelCommand.
Record t := mk { FolderID : Z; Name : string; Model : RawMessage }.
End patchLibraryPanelCommand.

(** [context.Context], as far as cancellation goes: [context.Background()]
    is never cancelled and has no deadline; a caller's context is either
    still live or already done (cancelled, or past its deadline). *)
Inductive Context :=
| Background
| Caller (done : bool).

(** Modelled from the spec: [models.ReqContext] is declared outside
    [database.go]; it carries the signed-in user (actor and organization)
    and the request, whose context is the caller-supplied cancellation
    signal. *)
Module SignedInUser.
Record t := mk { UserId : Z; OrgId : Z }.
End SignedInUser.

Module ReqContext.
Record t := mk { SignedInUser : SignedInUser.t; Req : Context }.
End ReqContext.

(** An error raised by the database driver; the dialect classifies it. *)
Inductive DriverError := DriverErr (code : Z).

(** Modelled from the spec: the package's error values are declared outside
    [database.go].  [errFoundPanels n] is the value
    [fmt.Errorf("found %d panels, while expecting at most one", n)] builds;
    [errStorage] is an error of the storage layer handed on as it is;
    [errCanceled] is [context.Canceled]. *)
Inductive error :=
| errLibraryPanelAlreadyExists
| errLibraryPanelNotFound
| errLibraryPanelDashboardNotFound
| errFoundPanels (n : nat)
| errStorage (e : DriverError)
| errCanceled.

(** ** The journal *)

Inductive ScopeKind := Plain | Transactional.

(** The statements [database.go] issues, with their arguments. *)
Inductive Statement :=
| SelectPanel (uid : string) (orgID : Z)
| SelectPanels (orgID : Z)
| InsertPanel (p : LibraryPanel.t)
| UpdatePanel (id : Z) (p : LibraryPanel.t)
| DeletePanel (uid : string) (orgID : Z)
| SelectConnections (panelID : Z)
| InsertConnection (c : libraryPanelDashboard.t)
| DeleteConnection (panelID dashboardID : Z).

Inductive Event :=
| Open (k : ScopeKind) (ctx : Context)
| Exec (s : Statement)
| Commit
| Rollback
| Abort.

(** ** The storage engine *)

(** What a session asks of the database.  A statement either fails with a
    driver error and changes nothing, or succeeds with its result and the
    new state.  [affected] results are [sql.Result.RowsAffected()]. *)
Class Engine (DB : Type) := {
  (** [Dialect.IsUniqueConstraintViolation] *)
  IsUniqueConstraintViolation : DriverError -> bool;
  (** [session.Insert(&libraryPanel)]: the storage-assigned key *)
  sql_insert_panel : LibraryPanel.t -> DB -> DriverError + (Z * DB);
  (** [Table("library_panel").Where("uid=? AND org_id=?", ...).Find] *)
  sql_find_panel : string -> Z -> DB -> DriverError + list LibraryPanel.t;
  (** [SELECT * FROM library_panel WHERE org_id=?] *)
  sql_select_panels : Z -> DB -> DriverError + list LibraryPanel.t;
  (** [session.ID(id).Update(&libraryPanel)]: rows affected *)
  sql_update_panel : Z -> LibraryPanel.t -> DB -> DriverError + (Z * DB);
  (** [DELETE FROM library_panel WHERE uid=? and org_id=?]: rows affected *)
  sql_delete_panel : string -> Z -> DB -> DriverError + (Z * DB);
  (** [session.Insert(&libraryPanelDashboard)]: rows affected *)
  sql_insert_connection : libraryPanelDashboard.t -> DB -> DriverError + (Z * DB);
  (** [Table("library_panel_dashboard").Where("librarypanel_id=?", ...).Find] *)
  sql_find_connections : Z -> DB -> DriverError + list libraryPanelDashboard.t;
  (** [DELETE FROM library_panel_dashboard WHERE librarypanel_id=? and
      dashboard_id=?]: rows affected *)
  sql_delete_connection : Z -> Z -> DB -> DriverError + (Z * DB)
}.

(** The SQL store: the engine's state and the journal kept beside it. *)
Record SQLStore (DB : Type) := mkStore {
  db : DB;
  journal : list Event
}.
Arguments mkStore {DB} _ _.
Arguments db {DB} _.
Arguments journal {DB} _.

Definition record {DB} (ev : Event) (s : SQLStore DB) : SQLStore DB :=
  mkStore (db s) (journal s ++ [ev]).

(** ** Sessions *)

(** A computation inside a session callback: [V] is the variable of the
    enclosing Go function the closure captures, [A] the value computed.
    State and captured variable survive an error (the scope decides what
    becomes of them). *)
Definition Session (DB V A : Type) : Type :=
  V -> SQLStore DB -> (error + A) * V * SQLStore DB.

Definition ret {DB V A} (a : A) : Session DB V A :=
  fun v s => (inr a, v, s).

Definition throw {DB V A} (e : error) : Session DB V A :=
  fun v s => (inl e, v, s).

Definition bind {DB V A B} (m : Session DB V A) (k : A -> Session DB V B)
  : Session DB V B :=
  fun v s =>
    match m v s with
    | (inl e, v', s') => (inl e, v', s')
    | (inr a, v', s') => k a v' s'
    end.

(** [m] with its error, if any, handed to the continuation: Go's
    [if _, err := m; err != nil { ... }]. *)
Definition attempt {DB V A B} (m : Session DB V A)
           (k : error + A -> Session DB V B) : Session DB V B :=
  fun v s => match m v s with (r, v', s') => k r v' s' end.

Definition load {DB V} : Session DB V V :=
  fun v s => (inr v, v, s).

Definition assign {DB V} (v : V) : Session DB V unit :=
  fun _ s => (inr tt, v, s).

Declare Scope session_scope.
Delimit Scope session_scope with session.
Notation "x <- m ;; k" := (bind m (fun x => k))
  (at level 100, m at next level, right associativity) : session_scope.
Notation "m ;; k" := (bind m (fun _ => k))
  (at level 100, right associativity) : session_scope.
Local Open Scope session_scope.

(** A statement that reads: journalled, the state untouched. *)
Definition query {DB V A} (st : Statement) (q : DB -> DriverError + A)
  : Session DB V A :=
  fun v s =>
    match q (db s) with
    | inl e => (inl (errStorage e), v, record (Exec st) s)
    | inr a => (inr a, v, record (Exec st) s)
    end.

(** A statement that writes: journalled, the state replaced on success. *)
Definition exec {DB V A} (st : Statement) (q : DB -> DriverError + (A * DB))
  : Session DB V A :=
  fun v s =>
    match q (db s) with
    | inl e => (inl (errStorage e), v, record (Exec st) s)
    | inr (a, d) => (inr a, v, mkStore d (journal s ++ [Exec st]))
    end.

(** [ctx.Err()] *)
Definition ctx_err (ctx : Context) : option error :=
  match ctx with
  | Background => None
  | Caller done => if done then Some errCanceled else None
  end.

(** Modelled from the spec: [SQLStore.WithTransactionalDbSession] is
    declared outside [database.go].  A scope bound to one atomic unit of
    work: it commits when the callback completes normally and rolls back,
    undoing the callback's writes, on any failure signalled from within; a
    scope whose context is already done is aborted before the callback
    runs. *)
Definition WithTransactionalDbSession {DB V} (ctx : Context)
           (callback : Session DB V unit)
  : V -> SQLStore DB -> option error * V * SQLStore DB :=
  fun v s =>
    let s0 := record (Open Transactional ctx) s in
    match ctx_err ctx with
    | Some e => (Some e, v, record Abort s0)
    | None =>
        match callback v s0 with
        | (inl e, v', s') => (Some e, v', mkStore (db s) (journal s' ++ [Rollback]))
        | (inr _, v', s') => (None, v', record Commit s')
        end
    end.

(** Modelled from the spec: [SQLStore.WithDbSession] is declared outside
    [database.go].  A session without a transaction: each statement takes
    effect on its own, nothing is committed or rolled back as a unit; a
    scope whose context is already done is aborted before the callback
    runs. *)
Definition WithDbSession {DB V} (ctx : Context)
           (callback : Session DB V unit)
  : V -> SQLStore DB -> option error * V * SQLStore DB :=
  fun v s =>
    let s0 := record (Open Plain ctx) s in
    match ctx_err ctx with
    | Some e => (Some e, v, record Abort s0)
    | None =>
        match callback v s0 with
        | (inl e, v', s') => (Some e, v', s')
        | (inr _, v', s') => (None, v', s')
        end
    end.

(** [if b { m }] *)
Definition when {DB V} (b : bool) (m : Session DB V unit) : Session DB V unit :=
  if b then m else ret tt.

(** [for _, x := range xs { body }] *)
Fixpoint for_range {DB V A} (xs : list A) (body : A -> Session DB V unit)
  : Session DB V unit :=
  match xs with
  | [] => ret tt
  | x :: rest => body x ;; for_range rest body
  end.

(** ** The operations of [database.go] *)

Section LibraryPanelService.
Context {DB : Type} `{Engine DB}.

Import LibraryPanel.

(** [Dialect.IsUniqueConstraintViolation(err)] on an [error] value: only
    an error of the driver can be one. *)
Definition is_unique_violation (err : error) : bool :=
  match err with
  | errStorage e => IsUniqueConstraintViolation e
  | _ => false
  end.

(** The package-level [getLibraryPanel(session, uid, orgID)]. *)
Definition getLibraryPanel {V} (uid : string) (orgID : Z)
  : Session DB V LibraryPanel.t :=
  libraryPanels <- query (SelectPanel uid orgID) (sql_find_panel uid orgID) ;;
  if (List.length libraryPanels =? 0)%nat then
    throw errLibraryPanelNotFound
  else if (1 <? List.length libraryPanels)%nat then
    throw (errFoundPanels (List.length libraryPanels))
  else
    ret (List.hd LibraryPanel.zero libraryPanels).

(** [createLibraryPanel] adds a Library Panel.  [uid] is what
    [util.GenerateShortUID()] returns, [now1] and [now2] what the two
    calls of [time.Now()] return. *)
Definition createLibraryPanel (c : ReqContext.t)
           (cmd : createLibraryPanelCommand.t)
           (uid : string) (now1 now2 : Time) (s : SQLStore DB)
  : LibraryPanel.t * option error * SQLStore DB :=
  let user := ReqContext.SignedInUser c in
  let libraryPanel :=
    {| OrgID := SignedInUser.OrgId user;
       FolderID := createLibraryPanelCommand.FolderID cmd;
       UID := uid;
       Name := createLibraryPanelCommand.Name cmd;
       Model := createLibraryPanelCommand.Model cmd;
       Created := now1;
       Updated := now2;
       CreatedBy := SignedInUser.UserId user;
       UpdatedBy := SignedInUser.UserId user;
       ID := 0 |} in
  let '(err, libraryPanel, s') :=
    WithTransactionalDbSession Background
      (attempt
         (p <- load ;;
          id <- exec (InsertPanel p) (sql_insert_panel p) ;;
          assign (with_ID id p))
         (fun r =>
            match r with
            | inl err =>
                if is_unique_violation err then
                  throw errLibraryPanelAlreadyExists
                else throw err
            | inr _ => ret tt
            end))
      libraryPanel s in
  (libraryPanel, err, s').

(** [connectDashboard] adds a connection between a Library Panel and a
    Dashboard. *)
Definition connectDashboard (c : ReqContext.t) (uid : string)
           (dashboardID : Z) (now : Time) (s : SQLStore DB)
  : option error * SQLStore DB :=
  let user := ReqContext.SignedInUser c in
  let '(err, _, s') :=
    WithTransactionalDbSession Background
      (panel <- getLibraryPanel uid (SignedInUser.OrgId user) ;;
       let lpd :=
         {| libraryPanelDashboard.DashboardID := dashboardID;
            libraryPanelDashboard.LibraryPanelID := ID panel;
            libraryPanelDashboard.Created := now;
            libraryPanelDashboard.CreatedBy := SignedInUser.UserId user |} in
       attempt
         (exec (InsertConnection lpd) (sql_insert_connection lpd))
         (fun r =>
            match r with
            | inl err =>
                if is_unique_violation err then ret tt else throw err
            | inr _ => ret tt
            end))
      tt s in
  (err, s').

(** [deleteLibraryPanel] deletes a Library Panel. *)
Definition deleteLibraryPanel (c : ReqContext.t) (uid : string)
           (s : SQLStore DB) : option error * SQLStore DB :=
  let orgID := SignedInUser.OrgId (ReqContext.SignedInUser c) in
  let '(err, _, s') :=
    WithTransactionalDbSession Background
      (rowsAffected <-
         exec (DeletePanel uid orgID) (sql_delete_panel uid orgID) ;;
       if negb (rowsAffected =? 1) then throw errLibraryPanelNotFound
       else ret tt)
      tt s in
  (err, s').

(** [disconnectDashboard] deletes a connection between a Library Panel and
    a Dashboard. *)
Definition disconnectDashboard (c : ReqContext.t) (uid : string)
           (dashboardID : Z) (s : SQLStore DB)
  : option error * SQLStore DB :=
  let user := ReqContext.SignedInUser c in
  let '(err, _, s') :=
    WithTransactionalDbSession Background
      (panel <- getLibraryPanel uid (SignedInUser.OrgId user) ;;
       rowsAffected <-
         exec (DeleteConnection (ID panel) dashboardID)
              (sql_delete_connection (ID panel) dashboardID) ;;
       if negb (rowsAffected =? 1) then
         throw errLibraryPanelDashboardNotFound
       else ret tt)
      tt s in
  (err, s').

(** The method [lps.getLibraryPanel] gets a Library Panel. *)
Definition lps_getLibraryPanel (c : ReqContext.t) (uid : string)
           (s : SQLStore DB)
  : LibraryPanel.t * option error * SQLStore DB :=
  let user := ReqContext.SignedInUser c in
  let '(err, libraryPanel, s') :=
    WithDbSession Background
      (attempt (getLibraryPanel uid (SignedInUser.OrgId user))
         (fun r =>
            match r with
            | inl err => assign LibraryPanel.zero ;; throw err
            | inr p => assign p
            end))
      LibraryPanel.zero s in
  (libraryPanel, err, s').

(** [getAllLibraryPanels] gets all library panels.  The slice is the one
    handed to [Find]; what it holds when [Find] fails is left to the
    storage, and no theorem speaks of the slice returned with an error. *)
Definition getAllLibraryPanels (c : ReqContext.t) (s : SQLStore DB)
  : list LibraryPanel.t * option error * SQLStore DB :=
  let orgID := SignedInUser.OrgId (ReqContext.SignedInUser c) in
  let '(err, libraryPanels, s') :=
    WithDbSession Background
      (rows <- query (SelectPanels orgID) (sql_select_panels orgID) ;;
       found <- load ;;
       assign (found ++ rows))
      [] s in
  (libraryPanels, err, s').

(** [getConnectedDashboards] gets all dashboards connected to a Library
    Panel. *)
Definition getConnectedDashboards (c : ReqContext.t) (uid : string)
           (s : SQLStore DB) : list Z * option error * SQLStore DB :=
  let user := ReqContext.SignedInUser c in
  let '(err, connectedDashboardIDs, s') :=
    WithDbSession Background
      (panel <- getLibraryPanel uid (SignedInUser.OrgId user) ;;
       libraryPanelDashboards <-
         query (SelectConnections (ID panel))
               (sql_find_connections (ID panel)) ;;
       for_range libraryPanelDashboards
         (fun lpd =>
            ids <- load ;;
            assign (ids ++ [libraryPanelDashboard.DashboardID lpd])))
      [] s in
  (connectedDashboardIDs, err, s').

(** [patchLibraryPanel] updates a Library Panel. *)
Definition patchLibraryPanel (c : ReqContext.t)
           (cmd : patchLibraryPanelCommand.t) (uid : string) (now : Time)
           (s : SQLStore DB)
  : LibraryPanel.t * option error * SQLStore DB :=
  let user := ReqContext.SignedInUser c in
  let '(err, libraryPanel, s') :=
    WithTransactionalDbSession Background
      (panelInDB <- getLibraryPanel uid (SignedInUser.OrgId user) ;;
       assign {| ID := ID panelInDB;
                 OrgID := SignedInUser.OrgId user;
                 FolderID := patchLibraryPanelCommand.FolderID cmd;
                 UID := uid;
                 Name := patchLibraryPanelCommand.Name cmd;
                 Model := patchLibraryPanelCommand.Model cmd;
                 Created := Created panelInDB;
                 CreatedBy := CreatedBy panelInDB;
                 Updated := now;
                 UpdatedBy := SignedInUser.UserId user |} ;;
       when (patchLibraryPanelCommand.FolderID cmd =? 0)
            (p <- load ;; assign (with_FolderID (FolderID panelInDB) p)) ;;
       when (patchLibraryPanelCommand.Name cmd =? EmptyString)%string
            (p <- load ;; assign (with_Name (Name panelInDB) p)) ;;
       when (match patchLibraryPanelCommand.Model cmd with
             | None => true
             | Some _ => false
             end)
            (p <- load ;; assign (with_Model (Model panelInDB) p)) ;;
       libraryPanel <- load ;;
       attempt
         (exec (UpdatePanel (ID panelInDB) libraryPanel)
               (sql_update_panel (ID panelInDB) libraryPanel))
         (fun r =>
            match r with
            | inl err =>
                if is_unique_violation err then
                  throw errLibraryPanelAlreadyExists
                else throw err
            | inr rowsAffected =>
                if negb (rowsAffected =? 1) then
                  throw errLibraryPanelNotFound
                else ret tt
            end))
      LibraryPanel.zero s in
  (libraryPanel, err, s').

End LibraryPanelService.

(** ** An in-memory engine *)

(** Modelled from the spec: the schema of the two tables and the database
    behind the session are outside [database.go].  Table A ([library_panel])
    holds the panels, its key assigned by the storage on insert and its UID
    column unique; table B ([library_panel_dashboard]) holds the
    connections, unique on (panel key, dashboard id).  A table is the list
    of its rows in insertion order. *)
Record MemDB := mkMem {
  library_panel : list LibraryPanel.t;
  library_panel_dashboard : list libraryPanelDashboard.t;
  library_panel_seq : Z
}.

(** [uid=? AND org_id=?] *)
Definition panel_is (uid : string) (orgID : Z) (p : LibraryPanel.t) : bool :=
  (LibraryPanel.UID p =? uid)%string && (LibraryPanel.OrgID p =? orgID).

(** [librarypanel_id=? and dashboard_id=?] *)
Definition connects (panelID dashboardID : Z) (c : libraryPanelDashboard.t)
  : bool :=
  (libraryPanelDashboard.LibraryPanelID c =? panelID)
  && (libraryPanelDashboard.DashboardID c =? dashboardID).

(** [librarypanel_id=?] *)
Definition of_panel (panelID : Z) (c : libraryPanelDashboard.t) : bool :=
  libraryPanelDashboard.LibraryPanelID c =? panelID.

(** The primary key of a panel row is [id]. *)
Definition has_ID (id : Z) (p : LibraryPanel.t) : bool :=
  LibraryPanel.ID p =? id.

(** The number of rows of a table a predicate selects. *)
Definition matching {A} (f : A -> bool) (rows : list A) : Z :=
  Z.of_nat (List.length (filter f rows)).

Definition without {A} (f : A -> bool) (rows : list A) : list A :=
  filter (fun r => negb (f r)) rows.

(** The driver's error for a duplicate key. *)
Definition ErrDuplicateEntry : DriverError := DriverErr 1062.

Definition mem_is_unique_violation (e : DriverError) : bool :=
  match e with DriverErr code => code =? 1062 end.

Definition mem_insert_panel (p : LibraryPanel.t) (d : MemDB)
  : DriverError + (Z * MemDB) :=
  if existsb (fun q => (LibraryPanel.UID q =? LibraryPanel.UID p)%string)
             (library_panel d)
  then inl ErrDuplicateEntry
  else
    let id := library_panel_seq d in
    inr (id, mkMem (library_panel d ++ [LibraryPanel.with_ID id p])
                   (library_panel_dashboard d)
                   (id + 1)).

Definition mem_find_panel (uid : string) (orgID : Z) (d : MemDB)
  : DriverError + list LibraryPanel.t :=
  inr (filter (panel_is uid orgID) (library_panel d)).

(** Rows come back in table order here; a select without an order clause
    promises none, and the theorems about listings speak of membership
    only. *)
Definition mem_select_panels (orgID : Z) (d : MemDB)
  : DriverError + list LibraryPanel.t :=
  inr (filter (fun p => LibraryPanel.OrgID p =? orgID) (library_panel d)).

(** The row whose key is [id] is replaced by [p] (the key column itself is
    not written); the update is refused when it would give the row the UID
    of another row.  Which columns of [p] a storage writes, and at what
    resolution it keeps instants, is its own affair: the theorems that
    follow speak of the panel built and handed to the update, of keys,
    UIDs, organizations and the tables touched, and of what is read back
    in the fields a command set, never of a stored row being the returned
    panel in every field. *)
Definition mem_update_panel (id : Z) (p : LibraryPanel.t) (d : MemDB)
  : DriverError + (Z * MemDB) :=
  if existsb (has_ID id) (library_panel d)
     && existsb (fun q => negb (has_ID id q)
                          && (LibraryPanel.UID q =? LibraryPanel.UID p)%string)
                (library_panel d)
  then inl ErrDuplicateEntry
  else
    inr (matching (has_ID id) (library_panel d),
         mkMem (map (fun q => if has_ID id q then LibraryPanel.with_ID id p
                              else q)
                    (library_panel d))
               (library_panel_dashboard d)
               (library_panel_seq d)).

Definition mem_delete_panel (uid : string) (orgID : Z) (d : MemDB)
  : DriverError + (Z * MemDB) :=
  inr (matching (panel_is uid orgID) (library_panel d),
       mkMem (without (panel_is uid orgID) (library_panel d))
             (library_panel_dashboard d)
             (library_panel_seq d)).

Definition mem_insert_connection (c : libraryPanelDashboard.t) (d : MemDB)
  : DriverError + (Z * MemDB) :=
  if existsb (connects (libraryPanelDashboard.LibraryPanelID c)
                       (libraryPanelDashboard.DashboardID c))
             (library_panel_dashboard d)
  then inl ErrDuplicateEntry
  else
    inr (1, mkMem (library_panel d)
                  (library_panel_dashboard d ++ [c])
                  (library_panel_seq d)).

(** Rows come back in table order here; the theorems about the listing of
    connected dashboards speak of membership only. *)
Definition mem_find_connections (panelID : Z) (d : MemDB)
  : DriverError + list libraryPanelDashboard.t :=
  inr (filter (of_panel panelID) (library_panel_dashboard d)).

Definition mem_delete_connection (panelID dashboardID : Z) (d : MemDB)
  : DriverError + (Z * MemDB) :=
  inr (matching (connects panelID dashboardID) (library_panel_dashboard d),
       mkMem (library_panel d)
             (without (connects panelID dashboardID)
                      (library_panel_dashboard d))
             (library_panel_seq d)).

#[export] Instance MemEngine : Engine MemDB := {
  IsUniqueConstraintViolation := mem_is_unique_violation;
  sql_insert_panel := mem_insert_panel;
  sql_find_panel := mem_find_panel;
  sql_select_panels := mem_select_panels;
  sql_update_panel := mem_update_panel;
  sql_delete_panel := mem_delete_panel;
  sql_insert_connection := mem_insert_connection;
  sql_find_connections := mem_find_connections;
  sql_delete_connection := mem_delete_connection
}.

(** No two elements of [l] are equal under [eqb]. *)
Fixpoint distinct {A} (eqb : A -> A -> bool) (l : list A) : bool :=
  match l with
  | [] => true
  | x :: rest => negb (existsb (eqb x) rest) && distinct eqb rest
  end.

Definition same_pair (a b : Z * Z) : bool :=
  (fst a =? fst b) && (snd a =? snd b).

Definition connection_key (c : libraryPanelDashboard.t) : Z * Z :=
  (libraryPanelDashboard.LibraryPanelID c, libraryPanelDashboard.DashboardID c).

(** The uniqueness invariants of the two tables: panel keys are distinct and
    below the next key to assign, UIDs are distinct, and no (panel key,
    dashboard id) pair is connected twice. *)
Definition consistent (d : MemDB) : bool :=
  distinct Z.eqb (map LibraryPanel.ID (library_panel d))
  && forallb (fun p => LibraryPanel.ID p <? library_panel_seq d)
             (library_panel d)
  && distinct String.eqb (map LibraryPanel.UID (library_panel d))
  && distinct same_pair (map connection_key (library_panel_dashboard d)).

(** The database a service starts from: both tables empty. *)
Definition empty_db : MemDB := mkMem [] [] 1.

(** ** A fault-injecting engine *)

(** An engine over [DB] in which the statements [outage] selects fail with
    the driver error it gives, before they reach the database. *)
Record Flaky (DB : Type) := mkFlaky {
  inner : DB;
  outage : Statement -> option DriverError
}.
Arguments mkFlaky {DB} _ _.
Arguments inner {DB} _.
Arguments outage {DB} _.

Section FlakyEngine.
Context {DB : Type} `{Engine DB}.

Definition flaky_read {A} (st : Statement) (q : DB -> DriverError + A)
           (f : Flaky DB) : DriverError + A :=
  match outage f st with
  | Some e => inl e
  | None => q (inner f)
  end.

Definition flaky_write {A} (st : Statement) (q : DB -> DriverError + (A * DB))
           (f : Flaky DB) : DriverError + (A * Flaky DB) :=
  match outage f st with
  | Some e => inl e
  | None =>
      match q (inner f) with
      | inl e => inl e
      | inr (a, d) => inr (a, mkFlaky d (outage f))
      end
  end.

#[export] Instance FlakyEngine : Engine (Flaky DB) := {
  IsUniqueConstraintViolation := IsUniqueConstraintViolation;
  sql_insert_panel p := flaky_write (InsertPanel p) (sql_insert_panel p);
  sql_find_panel uid orgID :=
    flaky_read (SelectPanel uid orgID) (sql_find_panel uid orgID);
  sql_select_panels orgID :=
    flaky_read (SelectPanels orgID) (sql_select_panels orgID);
  sql_update_panel id p :=
    flaky_write (UpdatePanel id p) (sql_update_panel id p);
  sql_delete_panel uid orgID :=
    flaky_write (DeletePanel uid orgID) (sql_delete_panel uid orgID);
  sql_insert_connection c :=
    flaky_write (InsertConnection c) (sql_insert_connection c);
  sql_find_connections panelID :=
    flaky_read (SelectConnections panelID) (sql_find_connections panelID);
  sql_delete_connection panelID dashboardID :=
    flaky_write (DeleteConnection panelID dashboardID)
                (sql_delete_connection panelID dashboardID)
}.
End FlakyEngine.

(** ** Sample stores and callers *)

(** A signed-in user (actor 42 of organization 1) whose request is live. *)
Definition alice : ReqContext.t :=
  ReqContext.mk (SignedInUser.mk 42 1) (Caller false).

(** The same user, after the request has been cancelled. *)
Definition alice_gone : ReqContext.t :=
  ReqContext.mk (SignedInUser.mk 42 1) (Caller true).

Definition cpu_panel : LibraryPanel.t :=
  LibraryPanel.mk 1 1 7 "cpu" "CPU" (Some "{type:graph}") 10 10 42 42.

Definition ram_panel : LibraryPanel.t :=
  LibraryPanel.mk 2 1 7 "ram" "RAM" (Some "{type:gauge}") 11 11 42 42.

Definition cpu_on_100 : libraryPanelDashboard.t :=
  libraryPanelDashboard.mk 100 1 12 42.

(** Two panels of organization 1, the first connected to dashboard 100. *)
Definition two_panels : SQLStore MemDB :=
  mkStore (mkMem [cpu_panel; ram_panel] [cpu_on_100] 3) [].

(** A fresh store. *)
Definition fresh : SQLStore MemDB := mkStore empty_db [].

(** A table in which the lookup invariant is broken: two rows answer to
    ("cpu", 1). *)
Definition doubled : SQLStore MemDB :=
  mkStore (mkMem [cpu_panel; LibraryPanel.with_ID 2 cpu_panel] [] 3) [].

(** The server goes away on every insert into the panel table. *)
Definition inserts_fail : Statement -> option DriverError :=
  fun st => match st with
            | InsertPanel _ => Some (DriverErr 2006)
            | _ => None
            end.

(** The driver reports a duplicate key on every update of a panel. *)
Definition updates_collide : Statement -> option DriverError :=
  fun st => match st with
            | UpdatePanel _ _ => Some ErrDuplicateEntry
            | _ => None
            end.

(** ** Observing what an operation journalled *)

(** The events an operation appended when it took the store from [s] to
    [s']. *)
Definition events_since {DB} (s s' : SQLStore DB) : list Event :=
  skipn (List.length (journal s)) (journal s').

Definition is_statement (ev : Event) : bool :=
  match ev with Exec _ => true | _ => false end.

Definition closes_scope (ev : Event) : bool :=
  match ev with Commit | Rollback => true | _ => false end.

(** The events of one transaction scope, run to its end: opened as a
    transaction, then statements only, then committed or rolled back. *)
Definition atomic_scope (evs : list Event) : bool :=
  match evs with
  | Open Transactional _ :: rest =>
      match rev rest with
      | last :: stmts => closes_scope last && forallb is_statement stmts
      | [] => false
      end
  | _ => false
  end.

(** The context the first scope among [evs] was opened with. *)
Definition scope_context (evs : list Event) : option Context :=
  match evs with
  | Open _ ctx :: _ => Some ctx
  | _ => None
  end.

(** What one operation may do to the database: nothing, or what a single
    successful write statement does. *)
Definition one_write {DB} `{Engine DB} (d d' : DB) : Prop :=
  d' = d
  \/ (exists p id, sql_insert_panel p d = inr (id, d'))
  \/ (exists id p n, sql_update_panel id p d = inr (n, d'))
  \/ (exists uid orgID n, sql_delete_panel uid orgID d = inr (n, d'))
  \/ (exists c n, sql_insert_connection c d = inr (n, d'))
  \/ (exists panelID dashboardID n,
         sql_delete_connection panelID dashboardID d = inr (n, d')).

(** ** Observing what kind of statements an operation issued *)

(** A statement that only reads. *)
Definition is_select (ev : Event) : bool :=
  match ev with
  | Exec (SelectPanel _ _) | Exec (SelectPanels _)
  | Exec (SelectConnections _) => true
  | _ => false
  end.

(** What may follow the reads of an operation: nothing, or one more event
    (the one write, or the end of the scope) with no statement after it. *)
Fixpoint after_reads (evs : list Event) : bool :=
  match evs with
  | [] => true
  | ev :: rest =>
      if is_select ev then after_reads rest
      else forallb (fun e => negb (is_statement e)) rest
  end.

(** The events of an operation that opens a scope, reads, and writes at
    most once, as its last statement. *)
Definition reads_then_one_write (evs : list Event) : bool :=
  match evs with
  | Open _ _ :: body => after_reads body
  | _ => false
  end.

(** The error of an operation, if any, is one of the [allowed] ones. *)
Definition within (allowed : error -> bool) (err : option error) : bool :=
  match err with
  | None => true
  | Some e => allowed e
  end.

(** The errors the panel lookup can end in: no row, more than one row, or
    a fault of the storage. *)
Definition lookup_error (e : error) : bool :=
  match e with
  | errLibraryPanelNotFound => true
  | errFoundPanels n => (2 <=? n)%nat
  | errStorage _ => true
  | _ => false
  end.

(** A fault of the storage, handed on as it is. *)
Definition storage_error (e : error) : bool :=
  match e with
  | errStorage _ => true
  | _ => false
  end.

(** The rows of the panel table that belong to other organizations. *)
Definition of_other_orgs (orgID : Z) (rows : list LibraryPanel.t)
  : list LibraryPanel.t :=
  filter (fun p => negb (LibraryPanel.OrgID p =? orgID)) rows.

(** Every connection row refers to a key the panel table has already
    assigned. *)
Definition keys_assigned (d : MemDB) : bool :=
  forallb (fun c => libraryPanelDashboard.LibraryPanelID c
                    <? library_panel_seq d)
          (library_panel_dashboard d).

(** A panel of organization 2 beside the two panels of organization 1. *)
Definition disk_panel : LibraryPanel.t :=
  LibraryPanel.mk 3 2 9 "disk" "Disk" None 12 12 77 77.

Definition two_orgs : SQLStore MemDB :=
  mkStore (mkMem [cpu_panel; disk_panel; ram_panel] [cpu_on_100] 4) [].

(** ** Running a session by hand *)

Lemma events_since_eq {DB} (s s' : SQLStore DB) (evs : list Event) :
  journal s' = journal s ++ evs -> events_since s s' = evs.
Proof.
  intros Hj. unfold events_since. rewrite Hj.
  rewrite skipn_app, skipn_all, Nat.sub_diag. reflexivity.
Qed.

Ltac unfold_session :=
  unfold WithTransactionalDbSession, WithDbSession, getLibraryPanel,
    attempt, bind, ret, throw, load, assign, when, query, exec, record,
    ctx_err in *.

Ltac run := unfold_session; cbn [db journal fst snd] in *.

(** Case analysis on every outcome the engine can give. *)
Ltac engine_cases :=
  repeat (cbn;
          match goal with
          | |- context [match ?x with _ => _ end] =>
              lazymatch x with
              | context [match _ with _ => _ end] => fail
              | _ => destruct x eqn:?
              end
          end);
  cbn.

Ltac journal_eq :=
  apply events_since_eq; cbn [journal snd];
  rewrite <- ?app_assoc; cbn [app]; reflexivity.

(** The journal after an operation is the journal before it, extended. *)
Ltac journal_prefix :=
  try (eexists; apply events_since_eq; cbn [journal snd];
       rewrite <- ?app_assoc; cbn [app]; reflexivity).

Section Generic.
Context {DB : Type} `{Engine DB}.
Import LibraryPanel.

(** What the package-level [getLibraryPanel] does, by the rows found. *)
Lemma getLibraryPanel_run {V} uid orgID (v : V) (s : SQLStore DB) rows :
  sql_find_panel uid orgID (db s) = inr rows ->
  getLibraryPanel uid orgID v s =
    (match rows with
     | [] => inl errLibraryPanelNotFound
     | [p] => inr p
     | _ :: _ :: _ => inl (errFoundPanels (List.length rows))
     end, v, record (Exec (SelectPanel uid orgID)) s).
Proof.
  intros Hfind. run. rewrite Hfind.
  destruct rows as [|p [|q rest]]; reflexivity.
Qed.

Lemma getLibraryPanel_fault {V} uid orgID (v : V) (s : SQLStore DB) e :
  sql_find_panel uid orgID (db s) = inl e ->
  getLibraryPanel uid orgID v s =
    (inl (errStorage e), v, record (Exec (SelectPanel uid orgID)) s).
Proof. intros Hfind. run. rewrite Hfind. reflexivity. Qed.

(** C3: [getLibraryPanel] answers by the number of rows that match
    (uid, orgID): none is [errLibraryPanelNotFound]; exactly one is that
    row; more than one is the error [fmt.Errorf] builds, which is not
    [errLibraryPanelNotFound].  The method [lps.getLibraryPanel] hands
    the same three answers to its caller. *)
Theorem getLibraryPanel_three_way :
  forall V uid orgID (v : V) (s : SQLStore DB) rows,
    sql_find_panel uid orgID (db s) = inr rows ->
    let r := fst (fst (getLibraryPanel uid orgID v s)) in
    (rows = [] -> r = inl errLibraryPanelNotFound)
    /\ (forall p, rows = [p] -> r = inr p)
    /\ ((1 < List.length rows)%nat ->
        r = inl (errFoundPanels (List.length rows))
        /\ r <> inl errLibraryPanelNotFound)
    /\ (forall c, orgID = SignedInUser.OrgId (ReqContext.SignedInUser c) ->
        fst (lps_getLibraryPanel c uid s) =
          match r with
          | inl e => (LibraryPanel.zero, Some e)
          | inr p => (p, None)
          end).
Proof.
  intros V uid orgID v s rows Hfind r. subst r.
  rewrite (getLibraryPanel_run _ _ _ _ _ Hfind). cbn [fst].
  split; [|split; [|split]].
  - intros ->. reflexivity.
  - intros p ->. reflexivity.
  - intros Hlen. destruct rows as [|p [|q rest]]; cbn in Hlen; try lia.
    split; [reflexivity | discriminate].
  - intros c ->. unfold lps_getLibraryPanel.
    unfold WithDbSession, attempt. cbn [ctx_err].
    rewrite (getLibraryPanel_run _ _ _ (record _ s) _ Hfind).
    destruct rows as [|p [|q rest]]; reflexivity.
Qed.

(** The loop of [getConnectedDashboards] appends the dashboard id of
    every row, in order, and touches nothing else. *)
Lemma collect_dashboards_run (lpds : list libraryPanelDashboard.t)
      (ids : list Z) (s : SQLStore DB) :
  for_range lpds
    (fun lpd =>
       ids <- load ;;
       assign (ids ++ [libraryPanelDashboard.DashboardID lpd])) ids s
  = (inr tt, ids ++ map libraryPanelDashboard.DashboardID lpds, s).
Proof.
  revert ids. induction lpds as [|lpd rest IH]; intros ids; cbn.
  - rewrite app_nil_r. reflexivity.
  - unfold bind, load, assign in *. rewrite IH, <- app_assoc. reflexivity.
Qed.

(** C7: connect, disconnect and the listing of connected dashboards each
    issue the panel lookup by (uid, orgID) as their first statement; when
    no panel matches they fail with [errLibraryPanelNotFound], the lookup
    is the only statement issued, and the store is as it was. *)
Theorem relationship_ops_resolve_panel_first :
  forall c uid dashboardID now (s : SQLStore DB),
    let orgID := SignedInUser.OrgId (ReqContext.SignedInUser c) in
    let lookup := Exec (SelectPanel uid orgID) in
    (exists rest,
        events_since s (snd (connectDashboard c uid dashboardID now s)) =
          Open Transactional Background :: lookup :: rest)
    /\ (exists rest,
           events_since s (snd (disconnectDashboard c uid dashboardID s)) =
             Open Transactional Background :: lookup :: rest)
    /\ (exists rest,
           events_since s (snd (getConnectedDashboards c uid s)) =
             Open Plain Background :: lookup :: rest)
    /\ (sql_find_panel uid orgID (db s) = inr [] ->
        connectDashboard c uid dashboardID now s =
          (Some errLibraryPanelNotFound,
           mkStore (db s)
                   (journal s ++ [Open Transactional Background; lookup;
                                  Rollback]))
        /\ disconnectDashboard c uid dashboardID s =
             (Some errLibraryPanelNotFound,
              mkStore (db s)
                      (journal s ++ [Open Transactional Background; lookup;
                                     Rollback]))
        /\ getConnectedDashboards c uid s =
             ([], Some errLibraryPanelNotFound,
              mkStore (db s)
                      (journal s ++ [Open Plain Background; lookup]))).
Proof.
  intros c uid dashboardID now s orgID lookup.
  split; [|split; [|split]].
  - unfold connectDashboard. run. fold orgID.
    destruct (sql_find_panel uid orgID (db s)) as [e|[|p [|q rest]]];
      cbn; engine_cases; journal_prefix.
  - unfold disconnectDashboard. run. fold orgID.
    destruct (sql_find_panel uid orgID (db s)) as [e|[|p [|q rest]]];
      cbn; engine_cases; journal_prefix.
  - unfold getConnectedDashboards. run. fold orgID.
    destruct (sql_find_panel uid orgID (db s)) as [e|[|p [|q rest]]];
      cbn; try solve [journal_prefix].
    destruct (sql_find_connections (ID p) (db s)) as [e|lpds];
      cbn; try solve [journal_prefix].
    rewrite collect_dashboards_run. cbn. journal_prefix.
  - intros Hfind.
    unfold connectDashboard, disconnectDashboard, getConnectedDashboards.
    run. fold orgID. rewrite Hfind. cbn. rewrite <- !app_assoc.
    repeat split.
Qed.

(** The row [createLibraryPanel] hands to the insert. *)
Lemma createLibraryPanel_run c cmd uid now1 now2 (s : SQLStore DB) :
  let user := ReqContext.SignedInUser c in
  let p := {| ID := 0;
              OrgID := SignedInUser.OrgId user;
              FolderID := createLibraryPanelCommand.FolderID cmd;
              UID := uid;
              Name := createLibraryPanelCommand.Name cmd;
              Model := createLibraryPanelCommand.Model cmd;
              Created := now1;
              Updated := now2;
              CreatedBy := SignedInUser.UserId user;
              UpdatedBy := SignedInUser.UserId user |} in
  let began := journal s ++ [Open Transactional Background;
                             Exec (InsertPanel p)] in
  createLibraryPanel c cmd uid now1 now2 s =
    match sql_insert_panel p (db s) with
    | inl e =>
        (p,
         Some (if IsUniqueConstraintViolation e
               then errLibraryPanelAlreadyExists else errStorage e),
         mkStore (db s) (began ++ [Rollback]))
    | inr (id, d) => (with_ID id p, None, mkStore d (began ++ [Commit]))
    end.
Proof.
  intros user p began. unfold createLibraryPanel. run.
  fold user. fold p. subst began.
  destruct (sql_insert_panel p (db s)) as [e|[id d]]; cbn.
  - destruct (IsUniqueConstraintViolation e); cbn;
      rewrite <- !app_assoc; reflexivity.
  - rewrite <- !app_assoc. reflexivity.
Qed.

(** The row [patchLibraryPanel] builds from the row read and the
    command, as the struct literal and the three [if]s leave it. *)
Lemma patchLibraryPanel_run c cmd uid now (s : SQLStore DB) panelInDB :
  let user := ReqContext.SignedInUser c in
  let orgID := SignedInUser.OrgId user in
  sql_find_panel uid orgID (db s) = inr [panelInDB] ->
  let lp := {| ID := ID panelInDB;
               OrgID := orgID;
               FolderID :=
                 if patchLibraryPanelCommand.FolderID cmd =? 0
                 then FolderID panelInDB
                 else patchLibraryPanelCommand.FolderID cmd;
               UID := uid;
               Name :=
                 if (patchLibraryPanelCommand.Name cmd =? EmptyString)%string
                 then Name panelInDB
                 else patchLibraryPanelCommand.Name cmd;
               Model :=
                 match patchLibraryPanelCommand.Model cmd with
                 | None => Model panelInDB
                 | Some m => Some m
                 end;
               Created := Created panelInDB;
               CreatedBy := CreatedBy panelInDB;
               Updated := now;
               UpdatedBy := SignedInUser.UserId user |} in
  let began := journal s ++ [Open Transactional Background;
                             Exec (SelectPanel uid orgID);
                             Exec (UpdatePanel (ID panelInDB) lp)] in
  patchLibraryPanel c cmd uid now s =
    match sql_update_panel (ID panelInDB) lp (db s) with
    | inl e =>
        (lp,
         Some (if IsUniqueConstraintViolation e
               then errLibraryPanelAlreadyExists else errStorage e),
         mkStore (db s) (began ++ [Rollback]))
    | inr (rowsAffected, d) =>
        if rowsAffected =? 1
        then (lp, None, mkStore d (began ++ [Commit]))
        else (lp, Some errLibraryPanelNotFound,
              mkStore (db s) (began ++ [Rollback]))
    end.
Proof.
  intros user orgID Hfind lp began. unfold patchLibraryPanel. run.
  fold user. fold orgID. rewrite Hfind. cbn. subst began.
  destruct cmd as [folderID name model]; cbn in *.
  subst lp.
  destruct (folderID =? 0); destruct (name =? EmptyString)%string; destruct model;
    cbn;
    (destruct (sql_update_panel _ _ _) as [e|[n d]]; cbn;
     [destruct (IsUniqueConstraintViolation e)
     |destruct (n =? 1)]; cbn; rewrite <- !app_assoc; reflexivity).
Qed.

(** When the lookup does not resolve to a single row, [patchLibraryPanel]
    returns the zero panel and the lookup's error; nothing is updated. *)
Lemma patchLibraryPanel_unresolved c cmd uid now (s : SQLStore DB) :
  let orgID := SignedInUser.OrgId (ReqContext.SignedInUser c) in
  (forall panelInDB, sql_find_panel uid orgID (db s) <> inr [panelInDB]) ->
  patchLibraryPanel c cmd uid now s =
    (LibraryPanel.zero,
     Some match sql_find_panel uid orgID (db s) with
          | inl e => errStorage e
          | inr [] => errLibraryPanelNotFound
          | inr rows => errFoundPanels (List.length rows)
          end,
     mkStore (db s)
             (journal s ++ [Open Transactional Background;
                            Exec (SelectPanel uid orgID); Rollback])).
Proof.
  intros orgID Hnot. unfold patchLibraryPanel. run. fold orgID.
  destruct (sql_find_panel uid orgID (db s)) as [e|[|p [|q rest]]];
    cbn; rewrite <- ?app_assoc; try reflexivity.
  exfalso. apply (Hnot p). reflexivity.
Qed.

(** C6: on create, [errLibraryPanelAlreadyExists] is returned exactly
    when the insert fails with an error the dialect classifies as a
    uniqueness violation, and any other fault of the insert is returned
    as it is; on patch, [errLibraryPanelAlreadyExists] is returned
    exactly when the panel was resolved and the update fails with an
    error the dialect classifies as a uniqueness violation. *)
Theorem already_exists_iff_unique_violation :
  forall c (s : SQLStore DB),
    let user := ReqContext.SignedInUser c in
    (forall cmd uid now1 now2,
        let p := {| ID := 0;
                    OrgID := SignedInUser.OrgId user;
                    FolderID := createLibraryPanelCommand.FolderID cmd;
                    UID := uid;
                    Name := createLibraryPanelCommand.Name cmd;
                    Model := createLibraryPanelCommand.Model cmd;
                    Created := now1;
                    Updated := now2;
                    CreatedBy := SignedInUser.UserId user;
                    UpdatedBy := SignedInUser.UserId user |} in
        let err := snd (fst (createLibraryPanel c cmd uid now1 now2 s)) in
        (err = Some errLibraryPanelAlreadyExists <->
         exists e, sql_insert_panel p (db s) = inl e
                   /\ IsUniqueConstraintViolation e = true)
        /\ (forall e, sql_insert_panel p (db s) = inl e ->
                      IsUniqueConstraintViolation e = false ->
                      err = Some (errStorage e)))
    /\ (forall cmd uid now,
           let lp := fst (fst (patchLibraryPanel c cmd uid now s)) in
           let err := snd (fst (patchLibraryPanel c cmd uid now s)) in
           err = Some errLibraryPanelAlreadyExists <->
           exists panelInDB e,
             sql_find_panel uid (SignedInUser.OrgId user) (db s)
             = inr [panelInDB]
             /\ sql_update_panel (ID panelInDB) lp (db s) = inl e
             /\ IsUniqueConstraintViolation e = true).
Proof.
  intros c s user. split.
  - intros cmd uid now1 now2 p err. subst err.
    rewrite createLibraryPanel_run. fold user. fold p.
    destruct (sql_insert_panel p (db s)) as [e|[id d]]; cbn.
    + split.
      * split.
        -- intros Herr. exists e. split; [reflexivity|].
           destruct (IsUniqueConstraintViolation e);
             [reflexivity | discriminate].
        -- intros (e' & He' & Hu). injection He' as <-. rewrite Hu.
           reflexivity.
      * intros e' He' Hu. injection He' as <-. rewrite Hu. reflexivity.
    + split.
      * split; [discriminate|]. intros (e' & He' & _). discriminate.
      * intros e' He'. discriminate.
  - intros cmd uid now lp err. subst lp err.
    set (orgID := SignedInUser.OrgId user).
    destruct (sql_find_panel uid orgID (db s)) as [e|[|p [|q rest]]] eqn:Hfind.
    all: try (rewrite patchLibraryPanel_unresolved;
              [|fold user; fold orgID; rewrite Hfind; discriminate];
              fold user; fold orgID; rewrite Hfind; cbn;
              split; [discriminate|];
              intros (p' & e' & Hp' & _); discriminate).
    pose proof (patchLibraryPanel_run c cmd uid now s p Hfind) as Hrun.
    cbv zeta in Hrun. rewrite Hrun. clear Hrun. fold user. fold orgID.
    match goal with
    | |- context [sql_update_panel ?i ?l ?d] =>
        destruct (sql_update_panel i l d) as [e|[n d']] eqn:Hupd
    end; cbn.
    + split.
      * intros Herr. exists p, e. repeat split; try assumption.
        destruct (IsUniqueConstraintViolation e);
          [reflexivity | discriminate].
      * intros (p' & e' & Hp' & He' & Hu). injection Hp' as <-.
        rewrite Hupd in He'. injection He' as <-. rewrite Hu. reflexivity.
    + destruct (n =? 1); cbn.
      * split; [discriminate|].
        intros (p' & e' & Hp' & He' & _). injection Hp' as <-.
        rewrite Hupd in He'. discriminate.
      * split; [discriminate|].
        intros (p' & e' & Hp' & He' & _). injection Hp' as <-.
        rewrite Hupd in He'. discriminate.
Qed.

(** C1: when the lookup resolves to the row [panelInDB], the panel
    [patchLibraryPanel] returns takes folder id, name and model from the
    command where the command's value is not the default (0, the empty
    string, nil) and from [panelInDB] otherwise; that panel is what the
    update statement, issued by the key of [panelInDB], is given; an
    update that affects exactly one row commits and returns no error, an
    update that affects any other number of rows (zero among them) fails
    with [errLibraryPanelNotFound] and is rolled back. *)
Theorem patch_merges_and_updates_by_key :
  forall c cmd uid now (s : SQLStore DB) panelInDB,
    let orgID := SignedInUser.OrgId (ReqContext.SignedInUser c) in
    sql_find_panel uid orgID (db s) = inr [panelInDB] ->
    let lp := fst (fst (patchLibraryPanel c cmd uid now s)) in
    let err := snd (fst (patchLibraryPanel c cmd uid now s)) in
    let s' := snd (patchLibraryPanel c cmd uid now s) in
    let began := [Open Transactional Background;
                  Exec (SelectPanel uid orgID);
                  Exec (UpdatePanel (ID panelInDB) lp)] in
    FolderID lp = (if patchLibraryPanelCommand.FolderID cmd =? 0
                   then FolderID panelInDB
                   else patchLibraryPanelCommand.FolderID cmd)
    /\ Name lp = (if (patchLibraryPanelCommand.Name cmd =? EmptyString)%string
                  then Name panelInDB
                  else patchLibraryPanelCommand.Name cmd)
    /\ Model lp = match patchLibraryPanelCommand.Model cmd with
                  | None => Model panelInDB
                  | Some m => Some m
                  end
    /\ (events_since s s' = began ++ [Commit]
        \/ events_since s s' = began ++ [Rollback])
    /\ (forall rowsAffected d,
           sql_update_panel (ID panelInDB) lp (db s)
           = inr (rowsAffected, d) ->
           (rowsAffected = 1 ->
            err = None /\ db s' = d
            /\ events_since s s' = began ++ [Commit])
           /\ (rowsAffected <> 1 ->
               err = Some errLibraryPanelNotFound /\ db s' = db s
               /\ events_since s s' = began ++ [Rollback])).
Proof.
  intros c cmd uid now s panelInDB orgID Hfind lp err s' began.
  pose proof (patchLibraryPanel_run c cmd uid now s panelInDB Hfind) as Hrun.
  cbv zeta in Hrun. fold orgID in Hrun.
  subst began lp err s'. rewrite Hrun. clear Hrun.
  match goal with
  | |- context [sql_update_panel ?i ?l ?d] =>
      destruct (sql_update_panel i l d) as [e|[n d']] eqn:Hupd
  end.
  - cbn. rewrite Hupd.
    split; [reflexivity|]. split; [reflexivity|]. split; [reflexivity|].
    split; [right; journal_eq|].
    intros n d Hok. discriminate.
  - destruct (n =? 1) eqn:Hn; cbn; rewrite Hupd.
    + apply Z.eqb_eq in Hn. subst n.
      split; [reflexivity|]. split; [reflexivity|]. split; [reflexivity|].
      split; [left; journal_eq|].
      intros n d Hok. injection Hok as <- <-. split.
      * intros _. split; [reflexivity|]. split; [reflexivity|journal_eq].
      * intros Hne. congruence.
    + apply Z.eqb_neq in Hn.
      split; [reflexivity|]. split; [reflexivity|]. split; [reflexivity|].
      split; [right; journal_eq|].
      intros n0 d Hok. injection Hok as <- <-. split.
      * intros Hone. congruence.
      * intros _. split; [reflexivity|]. split; [reflexivity|journal_eq].
Qed.

Lemma deleteLibraryPanel_run c uid (s : SQLStore DB) :
  let orgID := SignedInUser.OrgId (ReqContext.SignedInUser c) in
  let began := journal s ++ [Open Transactional Background;
                             Exec (DeletePanel uid orgID)] in
  deleteLibraryPanel c uid s =
    match sql_delete_panel uid orgID (db s) with
    | inl e => (Some (errStorage e), mkStore (db s) (began ++ [Rollback]))
    | inr (rowsAffected, d) =>
        if rowsAffected =? 1
        then (None, mkStore d (began ++ [Commit]))
        else (Some errLibraryPanelNotFound,
              mkStore (db s) (began ++ [Rollback]))
    end.
Proof.
  intros orgID began. unfold deleteLibraryPanel. run. fold orgID.
  subst began.
  destruct (sql_delete_panel uid orgID (db s)) as [e|[n d]]; cbn;
    [|destruct (n =? 1); cbn]; rewrite <- !app_assoc; reflexivity.
Qed.

Lemma disconnectDashboard_run c uid dashboardID (s : SQLStore DB) panel :
  let orgID := SignedInUser.OrgId (ReqContext.SignedInUser c) in
  sql_find_panel uid orgID (db s) = inr [panel] ->
  let began := journal s ++ [Open Transactional Background;
                             Exec (SelectPanel uid orgID);
                             Exec (DeleteConnection (ID panel) dashboardID)] in
  disconnectDashboard c uid dashboardID s =
    match sql_delete_connection (ID panel) dashboardID (db s) with
    | inl e => (Some (errStorage e), mkStore (db s) (began ++ [Rollback]))
    | inr (rowsAffected, d) =>
        if rowsAffected =? 1
        then (None, mkStore d (began ++ [Commit]))
        else (Some errLibraryPanelDashboardNotFound,
              mkStore (db s) (began ++ [Rollback]))
    end.
Proof.
  intros orgID Hfind began. unfold disconnectDashboard. run. fold orgID.
  rewrite Hfind. cbn. subst began.
  destruct (sql_delete_connection (ID panel) dashboardID (db s))
    as [e|[n d]]; cbn;
    [|destruct (n =? 1); cbn]; rewrite <- !app_assoc; reflexivity.
Qed.

Lemma connectDashboard_run c uid dashboardID now (s : SQLStore DB) panel :
  let user := ReqContext.SignedInUser c in
  let orgID := SignedInUser.OrgId user in
  sql_find_panel uid orgID (db s) = inr [panel] ->
  let lpd :=
    {| libraryPanelDashboard.DashboardID := dashboardID;
       libraryPanelDashboard.LibraryPanelID := ID panel;
       libraryPanelDashboard.Created := now;
       libraryPanelDashboard.CreatedBy := SignedInUser.UserId user |} in
  let began := journal s ++ [Open Transactional Background;
                             Exec (SelectPanel uid orgID);
                             Exec (InsertConnection lpd)] in
  connectDashboard c uid dashboardID now s =
    match sql_insert_connection lpd (db s) with
    | inl e =>
        if IsUniqueConstraintViolation e
        then (None, mkStore (db s) (began ++ [Commit]))
        else (Some (errStorage e), mkStore (db s) (began ++ [Rollback]))
    | inr (_, d) => (None, mkStore d (began ++ [Commit]))
    end.
Proof.
  intros user orgID Hfind lpd began. unfold connectDashboard. run.
  fold user. fold orgID. rewrite Hfind. cbn. fold lpd. subst began.
  destruct (sql_insert_connection lpd (db s)) as [e|[n d]]; cbn;
    [destruct (IsUniqueConstraintViolation e); cbn|];
    rewrite <- !app_assoc; reflexivity.
Qed.

Lemma getConnectedDashboards_run c uid (s : SQLStore DB) panel :
  let orgID := SignedInUser.OrgId (ReqContext.SignedInUser c) in
  sql_find_panel uid orgID (db s) = inr [panel] ->
  let began := journal s ++ [Open Plain Background;
                             Exec (SelectPanel uid orgID);
                             Exec (SelectConnections (ID panel))] in
  getConnectedDashboards c uid s =
    match sql_find_connections (ID panel) (db s) with
    | inl e => ([], Some (errStorage e), mkStore (db s) began)
    | inr lpds =>
        (map libraryPanelDashboard.DashboardID lpds, None,
         mkStore (db s) began)
    end.
Proof.
  intros orgID Hfind began. unfold getConnectedDashboards. run.
  fold orgID. rewrite Hfind. cbn. subst began.
  destruct (sql_find_connections (ID panel) (db s)) as [e|lpds]; cbn.
  - rewrite <- !app_assoc. reflexivity.
  - rewrite collect_dashboards_run. cbn. rewrite <- !app_assoc.
    reflexivity.
Qed.
End Generic.

(** ** Rows, counted *)

Section Rows.
Context {A : Type}.

Lemma matching_nonneg (f : A -> bool) (l : list A) : 0 <= matching f l.
Proof. unfold matching. lia. Qed.

Lemma matching_cons (f : A -> bool) (x : A) (l : list A) :
  matching f (x :: l) = (if f x then 1 else 0) + matching f l.
Proof.
  unfold matching. cbn [filter]. destruct (f x); cbn [List.length]; lia.
Qed.

Lemma matching_app (f : A -> bool) (l1 l2 : list A) :
  matching f (l1 ++ l2) = matching f l1 + matching f l2.
Proof.
  unfold matching. rewrite filter_app, length_app. lia.
Qed.

Lemma matching_zero (f : A -> bool) (l : list A) :
  matching f l = 0 <-> existsb f l = false.
Proof.
  induction l as [|x rest IH]; [cbn; tauto|].
  rewrite matching_cons. cbn [existsb].
  pose proof (matching_nonneg f rest).
  destruct (f x); cbn [orb]; split; intros Hz; try lia; try discriminate;
    apply IH; (lia || assumption).
Qed.

Lemma matching_zero_without (f : A -> bool) (l : list A) :
  matching f l = 0 -> without f l = l.
Proof.
  induction l as [|x rest IH]; [reflexivity|].
  rewrite matching_cons. pose proof (matching_nonneg f rest).
  unfold without in *. cbn [filter].
  destruct (f x); cbn [negb]; intros Hz; [lia|].
  rewrite IH by lia. reflexivity.
Qed.

(** A predicate that selects exactly one row splits the table around it,
    and removing the selected rows removes that row and no other. *)
Lemma matching_one_split (f : A -> bool) (l : list A) :
  matching f l = 1 ->
  exists before x after,
    l = before ++ x :: after
    /\ f x = true
    /\ without f l = before ++ after
    /\ filter f l = [x].
Proof.
  induction l as [|y rest IH]; [discriminate|].
  rewrite matching_cons. pose proof (matching_nonneg f rest).
  destruct (f y) eqn:Hy; intros Hone.
  - assert (Hz : matching f rest = 0) by lia.
    exists [], y, rest. repeat split; try assumption.
    + unfold without. cbn [filter]. rewrite Hy. cbn [negb app].
      apply (matching_zero_without f rest Hz).
    + cbn [filter]. rewrite Hy. f_equal.
      unfold matching in Hz.
      destruct (filter f rest); [reflexivity|cbn in Hz; lia].
  - destruct IH as (before & x & after & Hl & Hx & Hw & Hf); [lia|].
    exists (y :: before), x, after. repeat split; try assumption.
    + rewrite Hl. reflexivity.
    + unfold without in *. cbn [filter]. rewrite Hy. cbn [negb app].
      rewrite Hw. reflexivity.
    + cbn [filter]. rewrite Hy. assumption.
Qed.

Lemma filter_singleton_matching (f : A -> bool) (l : list A) (x : A) :
  filter f l = [x] -> matching f l = 1 /\ In x l /\ f x = true.
Proof.
  intros Hf. split.
  - unfold matching. rewrite Hf. reflexivity.
  - apply filter_In. rewrite Hf. left. reflexivity.
Qed.

Lemma matching_positive (f : A -> bool) (l : list A) (x : A) :
  In x l -> f x = true -> 1 <= matching f l.
Proof.
  intros Hin Hx.
  assert (Hin' : In x (filter f l)) by (apply filter_In; tauto).
  unfold matching. destruct (filter f l); [contradiction|cbn; lia].
Qed.

Lemma matching_zero_replace (f : A -> bool) (y : A) (l : list A) :
  matching f l = 0 -> map (fun q => if f q then y else q) l = l.
Proof.
  induction l as [|x rest IH]; [reflexivity|].
  rewrite matching_cons. pose proof (matching_nonneg f rest).
  cbn [map]. destruct (f x); intros Hz; [lia|].
  rewrite IH by lia. reflexivity.
Qed.

(** Replacing the rows a predicate selects, when it selects exactly one,
    puts the new row in that row's place and leaves the others. *)
Lemma matching_one_replace (f : A -> bool) (y : A) (l : list A) :
  matching f l = 1 ->
  exists before x after,
    l = before ++ x :: after
    /\ filter f l = [x]
    /\ map (fun q => if f q then y else q) l = before ++ y :: after.
Proof.
  induction l as [|z rest IH]; [discriminate|].
  rewrite matching_cons. pose proof (matching_nonneg f rest).
  destruct (f z) eqn:Hz; intros Hone.
  - assert (Hnone : matching f rest = 0) by lia.
    exists [], z, rest. split; [reflexivity|]. split.
    + cbn [filter]. rewrite Hz. f_equal. unfold matching in Hnone.
      destruct (filter f rest); [reflexivity|cbn in Hnone; lia].
    + cbn [map app]. rewrite Hz.
      rewrite (matching_zero_replace f y rest Hnone). reflexivity.
  - destruct IH as (before & x & after & Hl & Hf & Hm); [lia|].
    exists (z :: before), x, after. split; [rewrite Hl; reflexivity|].
    split.
    + cbn [filter]. rewrite Hz. assumption.
    + cbn [map app]. rewrite Hz, Hm. reflexivity.
Qed.

Section Keys.
Context {K : Type} (key : A -> K) (eqb : K -> K -> bool).
Hypothesis eqb_spec : forall a b, eqb a b = true <-> a = b.

Lemma distinct_inj (l : list A) (x y : A) :
  distinct eqb (map key l) = true ->
  In x l -> In y l -> key x = key y -> x = y.
Proof.
  induction l as [|z rest IH]; [contradiction|].
  cbn [map distinct]. intros Hd Hx Hy Hk.
  apply andb_true_iff in Hd. destruct Hd as [Hfresh Hd].
  apply negb_true_iff in Hfresh.
  assert (Hnot : forall w, In w rest -> key w <> key z).
  { intros w Hw Heq.
    assert (existsb (eqb (key z)) (map key rest) = true) as Hex.
    { apply existsb_exists. exists (key w). split.
      - apply in_map. assumption.
      - apply eqb_spec. symmetry. assumption. }
    congruence. }
  destruct Hx as [<-|Hx], Hy as [<-|Hy].
  - reflexivity.
  - exfalso. apply (Hnot y Hy). symmetry. assumption.
  - exfalso. apply (Hnot x Hx). assumption.
  - apply IH; assumption.
Qed.

Lemma distinct_matching_le1 (l : list A) (k : K) :
  distinct eqb (map key l) = true ->
  matching (fun q => eqb (key q) k) l <= 1.
Proof.
  induction l as [|z rest IH]; [unfold matching; cbn; lia|].
  cbn [map distinct]. intros Hd.
  apply andb_true_iff in Hd. destruct Hd as [Hfresh Hd].
  apply negb_true_iff in Hfresh.
  rewrite matching_cons. specialize (IH Hd).
  destruct (eqb (key z) k) eqn:Hz; [|lia].
  apply eqb_spec in Hz.
  assert (Hnone : matching (fun q => eqb (key q) k) rest = 0).
  { apply matching_zero. apply not_true_iff_false. intros Hex.
    apply existsb_exists in Hex. destruct Hex as (w & Hw & Hwk).
    apply eqb_spec in Hwk.
    assert (existsb (eqb (key z)) (map key rest) = true) as Hex.
    { apply existsb_exists. exists (key w). split.
      - apply in_map. assumption.
      - apply eqb_spec. congruence. }
    congruence. }
  lia.
Qed.
End Keys.
End Rows.

Lemma same_pair_spec (a b : Z * Z) : same_pair a b = true <-> a = b.
Proof.
  destruct a as [a1 a2], b as [b1 b2]. unfold same_pair. cbn [fst snd].
  rewrite andb_true_iff, !Z.eqb_eq. split.
  - intros [-> ->]. reflexivity.
  - intros Heq. injection Heq as -> ->. split; reflexivity.
Qed.

(** ** What consistency gives *)

Section Consistency.
Import LibraryPanel.

Lemma consistent_parts (d : MemDB) :
  consistent d = true ->
  distinct Z.eqb (map ID (library_panel d)) = true
  /\ forallb (fun p => ID p <? library_panel_seq d) (library_panel d) = true
  /\ distinct String.eqb (map UID (library_panel d)) = true
  /\ distinct same_pair (map connection_key (library_panel_dashboard d))
     = true.
Proof.
  unfold consistent. rewrite !andb_true_iff. tauto.
Qed.

(** A row of a consistent table is the only row with its key. *)
Lemma consistent_key_selects_one (d : MemDB) (p : LibraryPanel.t) :
  consistent d = true -> In p (library_panel d) ->
  matching (has_ID (ID p)) (library_panel d) = 1.
Proof.
  intros Hc Hin. apply consistent_parts in Hc. destruct Hc as (Hid & _).
  pose proof (distinct_matching_le1 ID Z.eqb Z.eqb_eq _ (ID p) Hid) as Hle.
  pose proof (matching_positive (has_ID (ID p)) _ p Hin) as Hge.
  unfold has_ID in *. rewrite Z.eqb_refl in Hge. specialize (Hge eq_refl).
  lia.
Qed.

(** In a consistent table no other row carries the UID of a row. *)
Lemma consistent_uid_not_shared (d : MemDB) (p : LibraryPanel.t) :
  consistent d = true -> In p (library_panel d) ->
  existsb (fun q => negb (has_ID (ID p) q) && (UID q =? UID p)%string)
          (library_panel d) = false.
Proof.
  intros Hc Hin. apply consistent_parts in Hc.
  destruct Hc as (_ & _ & Huid & _).
  apply not_true_iff_false. intros Hex.
  apply existsb_exists in Hex. destruct Hex as (q & Hq & Hboth).
  apply andb_true_iff in Hboth. destruct Hboth as [Hother Hsame].
  apply String.eqb_eq in Hsame.
  assert (q = p) as ->
      by (apply (distinct_inj UID String.eqb String.eqb_eq _ q p Huid);
          assumption).
  unfold has_ID in Hother. rewrite Z.eqb_refl in Hother. discriminate.
Qed.

(** In a consistent table a (panel key, dashboard id) pair is connected
    at most once. *)
Lemma consistent_connected_once (d : MemDB) (panelID dashboardID : Z) :
  consistent d = true ->
  matching (connects panelID dashboardID) (library_panel_dashboard d) <= 1.
Proof.
  intros Hc. apply consistent_parts in Hc. destruct Hc as (_ & _ & _ & Hp).
  exact (distinct_matching_le1 connection_key same_pair same_pair_spec _
                               (panelID, dashboardID) Hp).
Qed.
End Consistency.

(** ** The statements of the in-memory engine keep the tables consistent *)

Section Distinct.
Context {A K : Type} (key : A -> K) (eqb : K -> K -> bool).

Lemma existsb_map (f : K -> bool) (l : list A) :
  existsb f (map key l) = existsb (fun x => f (key x)) l.
Proof.
  induction l as [|x rest IH]; [reflexivity|].
  cbn [map existsb]. rewrite IH. reflexivity.
Qed.

Lemma distinct_snoc (l : list K) (x : K) :
  distinct eqb (l ++ [x]) =
    distinct eqb l && negb (existsb (fun y => eqb y x) l).
Proof.
  induction l as [|a rest IH]; [reflexivity|].
  cbn [app distinct existsb]. rewrite IH, existsb_app. cbn [existsb].
  destruct (existsb (eqb a) rest), (eqb a x), (distinct eqb rest),
    (existsb (fun y => eqb y x) rest); reflexivity.
Qed.

Lemma existsb_filter_false (f : A -> bool) (g : A -> bool) (l : list A) :
  existsb g l = false -> existsb g (filter f l) = false.
Proof.
  induction l as [|x rest IH]; [reflexivity|].
  cbn [existsb filter]. intros Hg. apply orb_false_iff in Hg.
  destruct Hg as [Hx Hrest].
  destruct (f x); cbn [existsb]; rewrite ?Hx, IH by assumption;
    reflexivity.
Qed.

Lemma distinct_filter (f : A -> bool) (l : list A) :
  distinct eqb (map key l) = true ->
  distinct eqb (map key (filter f l)) = true.
Proof.
  induction l as [|x rest IH]; [reflexivity|].
  cbn [map distinct filter]. intros Hd.
  apply andb_true_iff in Hd. destruct Hd as [Hfresh Hd].
  destruct (f x); [|apply IH; assumption].
  cbn [map distinct]. rewrite (IH Hd), andb_true_r.
  apply negb_true_iff in Hfresh. apply negb_true_iff.
  rewrite existsb_map in *. apply existsb_filter_false. assumption.
Qed.
End Distinct.

Lemma forallb_filter {A} (f g : A -> bool) (l : list A) :
  forallb g l = true -> forallb g (filter f l) = true.
Proof.
  induction l as [|x rest IH]; [reflexivity|].
  cbn [forallb filter]. intros Hg. apply andb_true_iff in Hg.
  destruct Hg as [Hx Hrest].
  destruct (f x); cbn [forallb]; rewrite ?Hx, IH by assumption; reflexivity.
Qed.

Section Preservation.
Import LibraryPanel.

Lemma mem_insert_connection_consistent c d n d' :
  consistent d = true ->
  mem_insert_connection c d = inr (n, d') -> consistent d' = true.
Proof.
  intros Hc. unfold mem_insert_connection.
  destruct (existsb _ (library_panel_dashboard d)) eqn:Hex; [discriminate|].
  intros Hok. injection Hok as <- <-.
  apply consistent_parts in Hc. destruct Hc as (Hid & Hseq & Huid & Hp).
  unfold consistent. cbn [library_panel library_panel_dashboard
                          library_panel_seq].
  rewrite Hid, Hseq, Huid. cbn [andb].
  rewrite map_app. cbn [map]. rewrite distinct_snoc, Hp. cbn [andb].
  apply negb_true_iff. rewrite existsb_map.
  exact Hex.
Qed.

Lemma mem_delete_connection_consistent panelID dashboardID d n d' :
  consistent d = true ->
  mem_delete_connection panelID dashboardID d = inr (n, d') ->
  consistent d' = true.
Proof.
  intros Hc Hok. unfold mem_delete_connection in Hok.
  injection Hok as <- <-.
  apply consistent_parts in Hc. destruct Hc as (Hid & Hseq & Huid & Hp).
  unfold consistent. cbn [library_panel library_panel_dashboard
                          library_panel_seq].
  rewrite Hid, Hseq, Huid. cbn [andb].
  apply distinct_filter. assumption.
Qed.

Lemma mem_delete_panel_consistent uid orgID d n d' :
  consistent d = true ->
  mem_delete_panel uid orgID d = inr (n, d') -> consistent d' = true.
Proof.
  intros Hc Hok. unfold mem_delete_panel in Hok. injection Hok as <- <-.
  apply consistent_parts in Hc. destruct Hc as (Hid & Hseq & Huid & Hp).
  unfold consistent, without.
  cbn [library_panel library_panel_dashboard library_panel_seq].
  rewrite (distinct_filter ID Z.eqb _ _ Hid).
  rewrite (forallb_filter _ _ _ Hseq).
  rewrite (distinct_filter UID String.eqb _ _ Huid).
  rewrite Hp. reflexivity.
Qed.

Lemma mem_insert_panel_consistent p d id d' :
  consistent d = true ->
  mem_insert_panel p d = inr (id, d') -> consistent d' = true.
Proof.
  intros Hc. unfold mem_insert_panel.
  destruct (existsb _ (library_panel d)) eqn:Hex; [discriminate|].
  intros Hok. injection Hok as <- <-.
  apply consistent_parts in Hc. destruct Hc as (Hid & Hseq & Huid & Hp).
  unfold consistent.
  cbn [library_panel library_panel_dashboard library_panel_seq].
  rewrite Hp, andb_true_r.
  rewrite !map_app. cbn [map with_ID ID UID].
  rewrite !distinct_snoc, Hid, Huid. cbn [andb].
  rewrite forallb_app. cbn [forallb with_ID ID].
  apply andb_true_iff. split; [apply andb_true_iff; split|].
  - apply negb_true_iff. rewrite existsb_map.
    apply not_true_iff_false. intros Hsome.
    apply existsb_exists in Hsome. destruct Hsome as (q & Hq & Heq).
    apply Z.eqb_eq in Heq.
    rewrite forallb_forall in Hseq. specialize (Hseq q Hq).
    apply Z.ltb_lt in Hseq. lia.
  - rewrite andb_true_r. apply andb_true_iff. split; [|apply Z.ltb_lt; lia].
    apply forallb_forall. intros q Hq.
    rewrite forallb_forall in Hseq. specialize (Hseq q Hq).
    apply Z.ltb_lt in Hseq. apply Z.ltb_lt. lia.
  - apply negb_true_iff. rewrite existsb_map. exact Hex.
Qed.

Lemma replace_keeps_keys id p (rows : list LibraryPanel.t) :
  map ID (map (fun q => if has_ID id q then with_ID id p else q) rows)
  = map ID rows.
Proof.
  induction rows as [|z rest IH]; [reflexivity|].
  cbn [map]. rewrite IH. f_equal.
  unfold has_ID. destruct (ID z =? id) eqn:Hz; [|reflexivity].
  apply Z.eqb_eq in Hz. cbn. congruence.
Qed.

Lemma replace_keeps_distinct_uids id p (rows : list LibraryPanel.t) :
  distinct Z.eqb (map ID rows) = true ->
  distinct String.eqb (map UID rows) = true ->
  existsb (fun q => negb (has_ID id q) && (UID q =? UID p)%string) rows
  = false ->
  distinct String.eqb
    (map UID (map (fun q => if has_ID id q then with_ID id p else q) rows))
  = true.
Proof.
  induction rows as [|z rest IH]; [reflexivity|].
  cbn [map distinct existsb]. intros Hid Huid Hfree.
  apply andb_true_iff in Hid. destruct Hid as [Hzid Hid].
  apply andb_true_iff in Huid. destruct Huid as [Hzuid Huid].
  apply orb_false_iff in Hfree. destruct Hfree as [Hz Hfree].
  apply negb_true_iff in Hzid, Hzuid.
  rewrite (IH Hid Huid Hfree), andb_true_r. apply negb_true_iff.
  rewrite !existsb_map in *.
  apply not_true_iff_false. intros Hex.
  apply existsb_exists in Hex. destruct Hex as (q & Hin & Heq).
  apply String.eqb_eq in Heq.
  assert (Hfree_q : has_ID id q = false -> UID q <> UID p).
  { intros Hnq Hsame.
    assert (existsb (fun q => negb (has_ID id q) && (UID q =? UID p)%string)
                    rest = true) as Habs.
    { apply existsb_exists. exists q. split; [assumption|].
      rewrite Hnq. cbn. apply String.eqb_eq. assumption. }
    congruence. }
  assert (Hzq : UID z <> UID q).
  { intros Hsame.
    assert (existsb (fun x => (UID z =? UID x)%string) rest = true) as Habs.
    { apply existsb_exists. exists q. split; [assumption|].
      apply String.eqb_eq. assumption. }
    congruence. }
  assert (Hzq_id : ID z <> ID q).
  { intros Hsame.
    assert (existsb (fun x => ID z =? ID x) rest = true) as Habs.
    { apply existsb_exists. exists q. split; [assumption|].
      apply Z.eqb_eq. assumption. }
    congruence. }
  destruct (has_ID id z) eqn:Hhz, (has_ID id q) eqn:Hhq;
    cbn [with_ID UID] in Heq.
  - unfold has_ID in *. apply Z.eqb_eq in Hhz, Hhq. congruence.
  - apply (Hfree_q eq_refl). symmetry. assumption.
  - cbn [negb andb] in Hz. apply String.eqb_neq in Hz. congruence.
  - congruence.
Qed.

Lemma mem_update_panel_consistent id p d n d' :
  consistent d = true ->
  mem_update_panel id p d = inr (n, d') -> consistent d' = true.
Proof.
  intros Hc. unfold mem_update_panel.
  destruct (existsb (has_ID id) (library_panel d)) eqn:Hany; cbn [andb].
  - match goal with
    | |- context [if ?b then _ else _] => destruct b eqn:Hfree
    end; [discriminate|].
    intros Hok. injection Hok as <- <-.
    apply consistent_parts in Hc. destruct Hc as (Hid & Hseq & Huid & Hp).
    unfold consistent.
    cbn [library_panel library_panel_dashboard library_panel_seq].
    rewrite replace_keeps_keys, Hid, Hp, andb_true_r. cbn [andb].
    rewrite (replace_keeps_distinct_uids id p _ Hid Huid Hfree),
      andb_true_r.
    apply forallb_forall. intros w Hw.
    apply in_map_iff in Hw. destruct Hw as (q & <- & Hq).
    rewrite forallb_forall in Hseq. specialize (Hseq q Hq).
    unfold has_ID. destruct (ID q =? id) eqn:Hqid; [|assumption].
    apply Z.eqb_eq in Hqid. cbn [with_ID ID]. rewrite <- Hqid. assumption.
  - intros Hok. injection Hok as <- <-.
    assert (Hsame : map (fun q => if has_ID id q then with_ID id p else q)
                        (library_panel d) = library_panel d).
    { apply matching_zero_replace. apply matching_zero. assumption. }
    unfold consistent in *.
    cbn [library_panel library_panel_dashboard library_panel_seq].
    rewrite Hsame. assumption.
Qed.

(** Whatever a single write statement does, the tables stay consistent. *)
Lemma one_write_consistent (d d' : MemDB) :
  one_write d d' -> consistent d = true -> consistent d' = true.
Proof.
  intros [->|[(p & id & Hw)|[(id & p & n & Hw)|[(uid & orgID & n & Hw)
           |[(c & n & Hw)|(a & b & n & Hw)]]]]] Hc.
  - assumption.
  - exact (mem_insert_panel_consistent _ _ _ _ Hc Hw).
  - exact (mem_update_panel_consistent _ _ _ _ _ Hc Hw).
  - exact (mem_delete_panel_consistent _ _ _ _ _ Hc Hw).
  - exact (mem_insert_connection_consistent _ _ _ _ Hc Hw).
  - exact (mem_delete_connection_consistent _ _ _ _ _ Hc Hw).
Qed.
End Preservation.

(** ** The operations on the in-memory engine *)

Section OnMemDB.
Import LibraryPanel.

Lemma mem_find_eq uid orgID (s : SQLStore MemDB) rows :
  filter (panel_is uid orgID) (library_panel (db s)) = rows ->
  sql_find_panel uid orgID (db s) = inr rows.
Proof. intros <-. reflexivity. Qed.

(** C4: [deleteLibraryPanel] issues one statement, the delete by
    (uid, orgID), and no read.  When no row matches it fails with
    [errLibraryPanelNotFound] and the store is as it was.  When exactly
    one row matches it succeeds, that row is gone from the panel table,
    every other panel row is where it was, and the connection table,
    rows referring to the deleted panel's key included, is as it was. *)
Theorem delete_removes_exactly_one_row :
  forall c uid (s : SQLStore MemDB),
    let orgID := SignedInUser.OrgId (ReqContext.SignedInUser c) in
    let rows := library_panel (db s) in
    let n := matching (panel_is uid orgID) rows in
    let err := fst (deleteLibraryPanel c uid s) in
    let s' := snd (deleteLibraryPanel c uid s) in
    events_since s s' =
      [Open Transactional Background; Exec (DeletePanel uid orgID);
       if n =? 1 then Commit else Rollback]
    /\ (n = 0 -> err = Some errLibraryPanelNotFound /\ db s' = db s)
    /\ (n = 1 ->
        err = None
        /\ (exists before p after,
               rows = before ++ p :: after
               /\ panel_is uid orgID p = true
               /\ library_panel (db s') = before ++ after)
        /\ library_panel_dashboard (db s') = library_panel_dashboard (db s)
        /\ library_panel_seq (db s') = library_panel_seq (db s)).
Proof.
  intros c uid s orgID rows n err s'. subst err s'.
  rewrite deleteLibraryPanel_run. fold orgID.
  cbn [sql_delete_panel MemEngine mem_delete_panel]. fold rows. fold n.
  destruct (n =? 1) eqn:Hn.
  - apply Z.eqb_eq in Hn. cbn [fst snd db].
    split; [journal_eq|]. split; [intros Hz; lia|]. intros _.
    split; [reflexivity|]. split; [|split; reflexivity].
    destruct (matching_one_split _ _ Hn) as (before & p & after & Hr & Hp & Hw & _).
    exists before, p, after. repeat split; assumption.
  - apply Z.eqb_neq in Hn. cbn [fst snd db].
    split; [journal_eq|]. split; [|intros Hone; lia].
    intros _. split; reflexivity.
Qed.

(** C5: once the panel is resolved, [disconnectDashboard] issues the
    delete of the rows matching (panel key, dashboardID).  When exactly
    one row matches it succeeds and that row, and no other, is gone.
    When the number of matching rows is not one, and so when the pair was
    never connected, it fails with [errLibraryPanelDashboardNotFound] and
    the store is as it was. *)
Theorem disconnect_exactly_one_connection :
  forall c uid dashboardID (s : SQLStore MemDB) panel,
    let orgID := SignedInUser.OrgId (ReqContext.SignedInUser c) in
    filter (panel_is uid orgID) (library_panel (db s)) = [panel] ->
    let conns := library_panel_dashboard (db s) in
    let n := matching (connects (ID panel) dashboardID) conns in
    let err := fst (disconnectDashboard c uid dashboardID s) in
    let s' := snd (disconnectDashboard c uid dashboardID s) in
    events_since s s' =
      [Open Transactional Background; Exec (SelectPanel uid orgID);
       Exec (DeleteConnection (ID panel) dashboardID);
       if n =? 1 then Commit else Rollback]
    /\ (n = 1 ->
        err = None
        /\ (exists before x after,
               conns = before ++ x :: after
               /\ connects (ID panel) dashboardID x = true
               /\ library_panel_dashboard (db s') = before ++ after)
        /\ library_panel (db s') = library_panel (db s))
    /\ (n = 0 ->
        err = Some errLibraryPanelDashboardNotFound /\ db s' = db s)
    /\ (n <> 1 ->
        err = Some errLibraryPanelDashboardNotFound /\ db s' = db s).
Proof.
  intros c uid dashboardID s panel orgID Hfind conns n err s'.
  subst err s'.
  rewrite (disconnectDashboard_run c uid dashboardID s panel
             (mem_find_eq _ _ _ _ Hfind)).
  fold orgID. cbn [sql_delete_connection MemEngine mem_delete_connection].
  fold conns. fold n.
  destruct (n =? 1) eqn:Hn.
  - apply Z.eqb_eq in Hn. cbn [fst snd db].
    split; [journal_eq|].
    split; [|split; intros Hz; lia]. intros _.
    split; [reflexivity|]. split; [|reflexivity].
    destruct (matching_one_split _ _ Hn) as (before & x & after & Hr & Hx & Hw & _).
    exists before, x, after. repeat split; assumption.
  - apply Z.eqb_neq in Hn. cbn [fst snd db].
    split; [journal_eq|]. split; [intros Hone; lia|].
    split; intros _; split; reflexivity.
Qed.

(** C2: with the panel resolved and the tables consistent, a connect for
    a pair that is already connected meets the uniqueness violation of
    the insert, returns no error and leaves the tables as they were; and
    two connects for the same pair both return no error and leave
    exactly one row for the pair, the second changing nothing. *)
Theorem connect_is_idempotent :
  forall c uid dashboardID now1 now2 (s : SQLStore MemDB) panel,
    let user := ReqContext.SignedInUser c in
    let orgID := SignedInUser.OrgId user in
    consistent (db s) = true ->
    filter (panel_is uid orgID) (library_panel (db s)) = [panel] ->
    let connected (d : MemDB) :=
      matching (connects (ID panel) dashboardID)
               (library_panel_dashboard d) in
    let err1 := fst (connectDashboard c uid dashboardID now1 s) in
    let s1 := snd (connectDashboard c uid dashboardID now1 s) in
    let err2 := fst (connectDashboard c uid dashboardID now2 s1) in
    let s2 := snd (connectDashboard c uid dashboardID now2 s1) in
    (connected (db s) = 1 ->
     sql_insert_connection
       {| libraryPanelDashboard.DashboardID := dashboardID;
          libraryPanelDashboard.LibraryPanelID := ID panel;
          libraryPanelDashboard.Created := now1;
          libraryPanelDashboard.CreatedBy := SignedInUser.UserId user |}
       (db s) = inl ErrDuplicateEntry
     /\ err1 = None /\ db s1 = db s)
    /\ err1 = None
    /\ err2 = None
    /\ connected (db s1) = 1
    /\ connected (db s2) = 1
    /\ db s2 = db s1
    /\ consistent (db s2) = true.
Proof.
  intros c uid dashboardID now1 now2 s panel user orgID Hcons Hfind
         connected err1 s1 err2 s2.
  pose proof (consistent_connected_once (db s) (ID panel) dashboardID Hcons)
    as Hle.
  pose proof (matching_nonneg (connects (ID panel) dashboardID)
                              (library_panel_dashboard (db s))) as Hge.
  assert (Hstep : forall now (t : SQLStore MemDB),
             filter (panel_is uid orgID) (library_panel (db t)) = [panel] ->
             connected (db t) = 1 ->
             connectDashboard c uid dashboardID now t =
               (None,
                mkStore (db t)
                  (journal t ++
                   [Open Transactional Background;
                    Exec (SelectPanel uid orgID);
                    Exec (InsertConnection
                            {| libraryPanelDashboard.DashboardID := dashboardID;
                               libraryPanelDashboard.LibraryPanelID := ID panel;
                               libraryPanelDashboard.Created := now;
                               libraryPanelDashboard.CreatedBy :=
                                 SignedInUser.UserId user |});
                    Commit]))).
  { intros now t Ht Hone.
    rewrite (connectDashboard_run c uid dashboardID now t panel
               (mem_find_eq _ _ _ _ Ht)).
    cbn [sql_insert_connection MemEngine]. unfold mem_insert_connection.
    cbn [libraryPanelDashboard.LibraryPanelID
         libraryPanelDashboard.DashboardID].
    destruct (existsb (connects (ID panel) dashboardID)
                      (library_panel_dashboard (db t))) eqn:Hex.
    - cbn. rewrite <- app_assoc. reflexivity.
    - apply matching_zero in Hex. subst connected. cbn beta in Hone. lia. }
  assert (Hfirst : err1 = None /\ connected (db s1) = 1
                   /\ library_panel (db s1) = library_panel (db s)
                   /\ (connected (db s) = 1 -> db s1 = db s)
                   /\ consistent (db s1) = true).
  { subst err1 s1.
    destruct (Z.eq_dec (connected (db s)) 1) as [Hone|Hnot].
    - rewrite (Hstep now1 s Hfind Hone). cbn [fst snd db].
      repeat split; try assumption; reflexivity.
    - assert (Hzero : connected (db s) = 0) by (subst connected; cbn beta in *; lia).
      rewrite (connectDashboard_run c uid dashboardID now1 s panel
                 (mem_find_eq _ _ _ _ Hfind)).
      cbn [sql_insert_connection MemEngine]. unfold mem_insert_connection.
      cbn [libraryPanelDashboard.LibraryPanelID
           libraryPanelDashboard.DashboardID].
      pose proof Hzero as Hex. apply matching_zero in Hex. rewrite Hex.
      cbn [fst snd db library_panel library_panel_dashboard].
      split; [reflexivity|]. split.
      { subst connected. cbn beta in *.
        cbn [library_panel_dashboard].
        rewrite matching_app, Hzero, matching_cons.
        unfold connects at 1.
        cbn [libraryPanelDashboard.LibraryPanelID
             libraryPanelDashboard.DashboardID].
        rewrite !Z.eqb_refl. reflexivity. }
      split; [reflexivity|]. split; [intros Hone; contradiction|].
      eapply (mem_insert_connection_consistent
                {| libraryPanelDashboard.DashboardID := dashboardID;
                   libraryPanelDashboard.LibraryPanelID := ID panel;
                   libraryPanelDashboard.Created := now1;
                   libraryPanelDashboard.CreatedBy :=
                     SignedInUser.UserId user |}
                (db s) 1); [exact Hcons|].
      unfold mem_insert_connection.
      cbn [libraryPanelDashboard.LibraryPanelID
           libraryPanelDashboard.DashboardID].
      rewrite Hex. reflexivity. }
  destruct Hfirst as (He1 & Hc1 & Hp1 & Hsame & Hcons1).
  assert (Hfind1 : filter (panel_is uid orgID) (library_panel (db s1))
                   = [panel]) by (rewrite Hp1; assumption).
  split.
  { intros Hone. split; [|split; [assumption|apply Hsame; assumption]].
    cbn [sql_insert_connection MemEngine]. unfold mem_insert_connection.
    cbn [libraryPanelDashboard.LibraryPanelID
         libraryPanelDashboard.DashboardID].
    destruct (existsb (connects (ID panel) dashboardID)
                      (library_panel_dashboard (db s))) eqn:Hex;
      [reflexivity|].
    apply matching_zero in Hex. subst connected. cbn beta in Hone. lia. }
  split; [assumption|].
  subst err2 s2. rewrite (Hstep now2 s1 Hfind1 Hc1). cbn [fst snd db].
  repeat split; assumption.
Qed.

End OnMemDB.

(** ** Scopes and contexts *)

(** C8, as stated, fails: listing the dashboards connected to a panel runs
    its two reads in a plain session; no transaction is opened, committed
    or rolled back around them. *)
Lemma listing_opens_no_transaction :
  events_since two_panels (snd (getConnectedDashboards alice "cpu" two_panels))
  = [Open Plain Background; Exec (SelectPanel "cpu" 1);
     Exec (SelectConnections 1)]
  /\ atomic_scope
       (events_since two_panels
                     (snd (getConnectedDashboards alice "cpu" two_panels)))
     = false.
Proof. split; reflexivity. Qed.

(** C9, as stated, fails: a caller whose request is already cancelled still
    has the panel created and committed; the scope was opened with
    [context.Background()], not with the request's context. *)
Lemma cancelled_caller_still_creates :
  let cmd := createLibraryPanelCommand.mk 7 "CPU" None in
  let r := createLibraryPanel alice_gone cmd "cpu" 10 10 fresh in
  ctx_err (ReqContext.Req alice_gone) = Some errCanceled
  /\ snd (fst r) = None
  /\ library_panel (db (snd r)) = [fst (fst r)]
  /\ scope_context (events_since fresh (snd r)) = Some Background
  /\ scope_context (events_since fresh (snd r))
     <> Some (ReqContext.Req alice_gone).
Proof. cbv. repeat split; discriminate. Qed.

Section Scopes.
Context {DB : Type} `{Engine DB}.

Ltac scope_shape :=
  run; engine_cases;
  (erewrite events_since_eq
    by (cbn [journal snd]; rewrite <- ?app_assoc; cbn [app]; reflexivity));
  reflexivity.

(** The listing of connected dashboards opens a plain session and issues
    statements only. *)
Lemma getConnectedDashboards_journal c uid (s : SQLStore DB) :
  exists stmts,
    events_since s (snd (getConnectedDashboards c uid s))
    = Open Plain Background :: stmts
    /\ forallb is_statement stmts = true.
Proof.
  destruct (sql_find_panel
              uid (SignedInUser.OrgId (ReqContext.SignedInUser c)) (db s))
    as [e|[|p [|q rest]]] eqn:Hfind.
  3: { rewrite (getConnectedDashboards_run c uid s p Hfind).
       destruct (sql_find_connections (LibraryPanel.ID p) (db s));
         eexists; (split; [journal_eq | reflexivity]). }
  all: unfold getConnectedDashboards; run; rewrite Hfind; cbn;
    eexists; (split; [journal_eq | reflexivity]).
Qed.

(** C8, amended: patch, connect and disconnect each run all their
    statements inside one transaction scope, opened once and ended by a
    commit or a rollback; the listing of connected dashboards opens a
    plain session and issues only statements in it. *)
Theorem writers_run_in_one_transaction :
  forall c uid (s : SQLStore DB),
    (forall cmd now,
        atomic_scope
          (events_since s (snd (patchLibraryPanel c cmd uid now s))) = true)
    /\ (forall dashboardID now,
           atomic_scope
             (events_since s (snd (connectDashboard c uid dashboardID now s)))
           = true)
    /\ (forall dashboardID,
           atomic_scope
             (events_since s (snd (disconnectDashboard c uid dashboardID s)))
           = true)
    /\ (exists stmts,
           events_since s (snd (getConnectedDashboards c uid s))
           = Open Plain Background :: stmts
           /\ forallb is_statement stmts = true).
Proof.
  intros c uid s. split; [|split; [|split]].
  - intros cmd now. unfold patchLibraryPanel. scope_shape.
  - intros dashboardID now. unfold connectDashboard. scope_shape.
  - intros dashboardID. unfold disconnectDashboard. scope_shape.
  - apply getConnectedDashboards_journal.
Qed.

(** C9, amended: every operation opens its scope with
    [context.Background()], whatever context the caller's request
    carries, and what it returns and does to the store does not depend on
    that context. *)
Theorem scopes_open_with_background :
  forall c uid (s : SQLStore DB),
    (forall cmd now1 now2,
        scope_context
          (events_since s (snd (createLibraryPanel c cmd uid now1 now2 s)))
        = Some Background)
    /\ (forall dashboardID now,
           scope_context
             (events_since s (snd (connectDashboard c uid dashboardID now s)))
           = Some Background)
    /\ scope_context (events_since s (snd (deleteLibraryPanel c uid s)))
       = Some Background
    /\ (forall dashboardID,
           scope_context
             (events_since s (snd (disconnectDashboard c uid dashboardID s)))
           = Some Background)
    /\ scope_context (events_since s (snd (lps_getLibraryPanel c uid s)))
       = Some Background
    /\ scope_context (events_since s (snd (getAllLibraryPanels c s)))
       = Some Background
    /\ scope_context (events_since s (snd (getConnectedDashboards c uid s)))
       = Some Background
    /\ (forall cmd now,
           scope_context
             (events_since s (snd (patchLibraryPanel c cmd uid now s)))
           = Some Background)
    /\ (forall ctx,
           let c' := ReqContext.mk (ReqContext.SignedInUser c) ctx in
           (forall cmd now1 now2,
               createLibraryPanel c' cmd uid now1 now2 s
               = createLibraryPanel c cmd uid now1 now2 s)
           /\ (forall dashboardID now,
                  connectDashboard c' uid dashboardID now s
                  = connectDashboard c uid dashboardID now s)
           /\ deleteLibraryPanel c' uid s = deleteLibraryPanel c uid s
           /\ (forall dashboardID,
                  disconnectDashboard c' uid dashboardID s
                  = disconnectDashboard c uid dashboardID s)
           /\ lps_getLibraryPanel c' uid s = lps_getLibraryPanel c uid s
           /\ getAllLibraryPanels c' s = getAllLibraryPanels c s
           /\ getConnectedDashboards c' uid s
              = getConnectedDashboards c uid s
           /\ (forall cmd now,
                  patchLibraryPanel c' cmd uid now s
                  = patchLibraryPanel c cmd uid now s)).
Proof.
  intros c uid s.
  split; [intros cmd now1 now2; unfold createLibraryPanel; scope_shape|].
  split; [intros dashboardID now; unfold connectDashboard; scope_shape|].
  split; [unfold deleteLibraryPanel; scope_shape|].
  split; [intros dashboardID; unfold disconnectDashboard; scope_shape|].
  split; [unfold lps_getLibraryPanel; scope_shape|].
  split; [unfold getAllLibraryPanels; scope_shape|].
  split.
  { destruct (getConnectedDashboards_journal c uid s)
      as (stmts & -> & _). reflexivity. }
  split; [intros cmd now; unfold patchLibraryPanel; scope_shape|].
  intros ctx c'. repeat split.
Qed.
End Scopes.

(** ** The consistency of the tables is an invariant *)

Section Invariant.
Context {DB : Type} `{Engine DB}.

Ltac pick_write :=
  run; engine_cases; unfold one_write; cbn [db snd];
  first [ left; reflexivity
        | right; left; solve [eauto]
        | right; right; left; solve [eauto]
        | right; right; right; left; solve [eauto]
        | right; right; right; right; left; solve [eauto]
        | right; right; right; right; right; solve [eauto] ].

(** Every operation leaves the database as it was or as one successful
    write statement leaves it. *)
Lemma operations_write_at_most_once :
  forall c uid (s : SQLStore DB),
    (forall cmd now1 now2,
        one_write (db s)
                  (db (snd (createLibraryPanel c cmd uid now1 now2 s))))
    /\ (forall dashboardID now,
           one_write (db s)
                     (db (snd (connectDashboard c uid dashboardID now s))))
    /\ one_write (db s) (db (snd (deleteLibraryPanel c uid s)))
    /\ (forall dashboardID,
           one_write (db s)
                     (db (snd (disconnectDashboard c uid dashboardID s))))
    /\ one_write (db s) (db (snd (lps_getLibraryPanel c uid s)))
    /\ one_write (db s) (db (snd (getAllLibraryPanels c s)))
    /\ one_write (db s) (db (snd (getConnectedDashboards c uid s)))
    /\ (forall cmd now,
           one_write (db s) (db (snd (patchLibraryPanel c cmd uid now s)))).
Proof.
  intros c uid s.
  split; [intros cmd now1 now2; unfold createLibraryPanel; pick_write|].
  split; [intros dashboardID now; unfold connectDashboard; pick_write|].
  split; [unfold deleteLibraryPanel; pick_write|].
  split; [intros dashboardID; unfold disconnectDashboard; pick_write|].
  split; [unfold lps_getLibraryPanel; pick_write|].
  split; [unfold getAllLibraryPanels; pick_write|].
  split; [|intros cmd now; unfold patchLibraryPanel; pick_write].
  left.
  destruct (sql_find_panel
              uid (SignedInUser.OrgId (ReqContext.SignedInUser c)) (db s))
    as [e|[|p [|q rest]]] eqn:Hfind.
  3: { rewrite (getConnectedDashboards_run c uid s p Hfind).
       destruct (sql_find_connections (LibraryPanel.ID p) (db s));
         reflexivity. }
  all: unfold getConnectedDashboards; run; rewrite Hfind; reflexivity.
Qed.
End Invariant.

(** On the in-memory engine every operation keeps the tables consistent:
    the stores the theorems above assume consistent are the ones the
    operations produce from the empty database. *)
Lemma operations_keep_consistency :
  forall c uid (s : SQLStore MemDB),
    consistent (db s) = true ->
    (forall cmd now1 now2,
        consistent (db (snd (createLibraryPanel c cmd uid now1 now2 s)))
        = true)
    /\ (forall dashboardID now,
           consistent (db (snd (connectDashboard c uid dashboardID now s)))
           = true)
    /\ consistent (db (snd (deleteLibraryPanel c uid s))) = true
    /\ (forall dashboardID,
           consistent (db (snd (disconnectDashboard c uid dashboardID s)))
           = true)
    /\ (forall cmd now,
           consistent (db (snd (patchLibraryPanel c cmd uid now s))) = true).
Proof.
  intros c uid s Hc.
  destruct (operations_write_at_most_once c uid s)
    as (Hcreate & Hconnect & Hdelete & Hdisconnect & _ & _ & _ & Hpatch).
  split; [intros cmd now1 now2;
          exact (one_write_consistent _ _ (Hcreate cmd now1 now2) Hc)|].
  split; [intros dashboardID now;
          exact (one_write_consistent _ _ (Hconnect dashboardID now) Hc)|].
  split; [exact (one_write_consistent _ _ Hdelete Hc)|].
  split; [intros dashboardID;
          exact (one_write_consistent _ _ (Hdisconnect dashboardID) Hc)|].
  intros cmd now. exact (one_write_consistent _ _ (Hpatch cmd now) Hc).
Qed.

Lemma empty_db_consistent : consistent empty_db = true.
Proof. reflexivity. Qed.

(** ** The theorems at concrete stores *)

(** C1 at a concrete store: renaming the panel "cpu" keeps its folder and
    model and takes the new name. *)
Lemma patch_merges_witness :
  sql_find_panel "cpu" 1 (db two_panels) = inr [cpu_panel]
  /\ (let r := patchLibraryPanel
                 alice (patchLibraryPanelCommand.mk 0 "Processor" None)
                 "cpu" 20 two_panels in
      LibraryPanel.FolderID (fst (fst r)) = 7
      /\ LibraryPanel.Name (fst (fst r)) = "Processor"
      /\ LibraryPanel.Model (fst (fst r)) = Some "{type:graph}"
      /\ snd (fst r) = None).
Proof.
  split; [reflexivity|].
  destruct (@patch_merges_and_updates_by_key MemDB MemEngine
              alice (patchLibraryPanelCommand.mk 0 "Processor" None)
              "cpu" 20 two_panels cpu_panel eq_refl)
    as (Hfolder & Hname & Hmodel & _ & Hupdate).
  split; [exact Hfolder|]. split; [exact Hname|]. split; [exact Hmodel|].
  exact (proj1 (proj1 (Hupdate 1 _ eq_refl) eq_refl)).
Defined.

(** C2 at a concrete store: connecting "ram" to dashboard 200 twice. *)
Lemma connect_is_idempotent_witness :
  consistent (db two_panels) = true
  /\ filter (panel_is "ram" 1) (library_panel (db two_panels)) = [ram_panel]
  /\ (let r1 := connectDashboard alice "ram" 200 20 two_panels in
      let r2 := connectDashboard alice "ram" 200 21 (snd r1) in
      fst r1 = None /\ fst r2 = None
      /\ matching (connects 2 200) (library_panel_dashboard (db (snd r2)))
         = 1).
Proof.
  split; [reflexivity|]. split; [reflexivity|].
  destruct (connect_is_idempotent alice "ram" 200 20 21 two_panels ram_panel
                                  eq_refl eq_refl)
    as (_ & He1 & He2 & _ & Hone & _).
  split; [exact He1|]. split; [exact He2|exact Hone].
Defined.

(** C3 at a concrete store: two rows answer to ("cpu", 1). *)
Lemma getLibraryPanel_three_way_witness :
  sql_find_panel "cpu" 1 (db doubled)
  = inr [cpu_panel; LibraryPanel.with_ID 2 cpu_panel]
  /\ fst (fst (getLibraryPanel "cpu" 1 tt doubled)) = inl (errFoundPanels 2)
  /\ fst (fst (getLibraryPanel "cpu" 1 tt doubled))
     <> inl errLibraryPanelNotFound.
Proof.
  split; [reflexivity|].
  destruct (@getLibraryPanel_three_way MemDB MemEngine
              unit "cpu" 1 tt doubled
              [cpu_panel; LibraryPanel.with_ID 2 cpu_panel] eq_refl)
    as (_ & _ & Hmany & _).
  exact (Hmany (Nat.lt_succ_diag_r 1)).
Defined.

(** C4 at concrete stores: deleting a panel that is not there, and one
    that is. *)
Lemma delete_removes_exactly_one_row_witness :
  (fst (deleteLibraryPanel alice "disk" two_panels)
   = Some errLibraryPanelNotFound
   /\ db (snd (deleteLibraryPanel alice "disk" two_panels)) = db two_panels)
  /\ (fst (deleteLibraryPanel alice "cpu" two_panels) = None
      /\ library_panel_dashboard
           (db (snd (deleteLibraryPanel alice "cpu" two_panels)))
         = [cpu_on_100]).
Proof.
  split.
  - exact (proj1 (proj2 (delete_removes_exactly_one_row
                           alice "disk" two_panels)) eq_refl).
  - destruct (proj2 (proj2 (delete_removes_exactly_one_row
                              alice "cpu" two_panels)) eq_refl)
      as (Herr & _ & Hconns & _).
    split; [exact Herr|exact Hconns].
Defined.

(** C5 at concrete stores: disconnecting a connected pair, and a pair that
    was never connected. *)
Lemma disconnect_exactly_one_connection_witness :
  filter (panel_is "cpu" 1) (library_panel (db two_panels)) = [cpu_panel]
  /\ filter (panel_is "ram" 1) (library_panel (db two_panels)) = [ram_panel]
  /\ fst (disconnectDashboard alice "cpu" 100 two_panels) = None
  /\ fst (disconnectDashboard alice "ram" 100 two_panels)
     = Some errLibraryPanelDashboardNotFound.
Proof.
  split; [reflexivity|]. split; [reflexivity|]. split.
  - exact (proj1 (proj1 (proj2 (disconnect_exactly_one_connection
                                  alice "cpu" 100 two_panels cpu_panel
                                  eq_refl)) eq_refl)).
  - exact (proj1 (proj1 (proj2 (proj2 (disconnect_exactly_one_connection
                                         alice "ram" 100 two_panels ram_panel
                                         eq_refl))) eq_refl)).
Defined.

(** C7 at a concrete store: no panel "disk" exists. *)
Lemma relationship_ops_resolve_panel_first_witness :
  sql_find_panel "disk" 1 (db two_panels) = inr []
  /\ fst (connectDashboard alice "disk" 100 20 two_panels)
     = Some errLibraryPanelNotFound
  /\ fst (disconnectDashboard alice "disk" 100 two_panels)
     = Some errLibraryPanelNotFound
  /\ fst (getConnectedDashboards alice "disk" two_panels)
     = ([], Some errLibraryPanelNotFound).
Proof.
  split; [reflexivity|].
  destruct (proj2 (proj2 (proj2 (@relationship_ops_resolve_panel_first MemDB MemEngine
                                   alice "disk" 100 20 two_panels))) eq_refl)
    as (Hconnect & Hdisconnect & Hlist).
  split; [exact (f_equal fst Hconnect)|].
  split; [exact (f_equal fst Hdisconnect)|exact (f_equal fst Hlist)].
Defined.


(** C6 at concrete stores: a create that collides on the UID of a stored
    panel, a create whose insert fails because the server went away, and a
    patch whose update the driver refuses as a duplicate. *)
Lemma already_exists_iff_unique_violation_witness :
  let cmd := createLibraryPanelCommand.mk 7 "CPU again" None in
  let flaky outage := mkStore (mkFlaky (db two_panels) outage) [] in
  snd (fst (createLibraryPanel alice cmd "cpu" 20 20 two_panels))
  = Some errLibraryPanelAlreadyExists
  /\ snd (fst (createLibraryPanel alice cmd "disk" 20 20 (flaky inserts_fail)))
     = Some (errStorage (DriverErr 2006))
  /\ snd (fst (patchLibraryPanel
                 alice (patchLibraryPanelCommand.mk 0 "Processor" None)
                 "cpu" 20 (flaky updates_collide)))
     = Some errLibraryPanelAlreadyExists.
Proof.
  intros cmd flaky. split; [|split].
  - apply (proj1 (@already_exists_iff_unique_violation
                    MemDB MemEngine alice two_panels) cmd "cpu" 20 20).
    exists ErrDuplicateEntry. split; reflexivity.
  - apply (proj1 (@already_exists_iff_unique_violation
                    (Flaky MemDB) FlakyEngine alice (flaky inserts_fail))
                 cmd "disk" 20 20);
      reflexivity.
  - apply (proj2 (@already_exists_iff_unique_violation
                    (Flaky MemDB) FlakyEngine alice (flaky updates_collide))
                 (patchLibraryPanelCommand.mk 0 "Processor" None) "cpu" 20).
    exists cpu_panel, ErrDuplicateEntry. repeat split.
Defined.

(** The scenario of the specification, run on a fresh store: create a
    panel, connect it to dashboard 100, list, disconnect, disconnect
    again. *)
Example create_connect_list_disconnect :
  let cmd := createLibraryPanelCommand.mk 0 "CPU" (Some "{type:graph}") in
  let '(panel, err0, s1) := createLibraryPanel alice cmd "u1" 10 10 fresh in
  let '(err1, s2) := connectDashboard alice "u1" 100 11 s1 in
  let '(ids, err2, s3) := getConnectedDashboards alice "u1" s2 in
  let '(err3, s4) := disconnectDashboard alice "u1" 100 s3 in
  let '(err4, s5) := disconnectDashboard alice "u1" 100 s4 in
  LibraryPanel.Name panel = "CPU"
  /\ LibraryPanel.CreatedBy panel = 42
  /\ (err0, err1, err2, err3) = (None, None, None, None)
  /\ ids = [100]
  /\ library_panel_dashboard (db s4) = []
  /\ err4 = Some errLibraryPanelDashboardNotFound
  /\ consistent (db s5) = true.
Proof. vm_compute. repeat split. Qed.

(** Connecting one panel to dashboards 7 and 9 lists exactly those. *)
Example connected_to_7_and_9 :
  let s1 := snd (connectDashboard alice "ram" 7 20 two_panels) in
  let s2 := snd (connectDashboard alice "ram" 9 21 s1) in
  let ids := fst (fst (getConnectedDashboards alice "ram" s2)) in
  snd (fst (getConnectedDashboards alice "ram" s2)) = None
  /\ In 7 ids /\ In 9 ids /\ List.length ids = 2%nat.
Proof. cbn. tauto. Qed.

(** * Further properties of the operations *)

(** ** On every storage engine *)

Section EveryEngine.
Context {DB : Type} `{Engine DB}.

(** What the listing of connected dashboards returns, by the outcome of
    the lookup and of the read of the connections. *)
Lemma getConnectedDashboards_cases c uid (s : SQLStore DB) :
  let orgID := SignedInUser.OrgId (ReqContext.SignedInUser c) in
  let looked := journal s ++ [Open Plain Background;
                              Exec (SelectPanel uid orgID)] in
  getConnectedDashboards c uid s =
    match sql_find_panel uid orgID (db s) with
    | inl e => ([], Some (errStorage e), mkStore (db s) looked)
    | inr [] => ([], Some errLibraryPanelNotFound, mkStore (db s) looked)
    | inr [panel] =>
        match sql_find_connections (LibraryPanel.ID panel) (db s) with
        | inl e =>
            ([], Some (errStorage e),
             mkStore (db s)
                     (looked ++ [Exec (SelectConnections
                                         (LibraryPanel.ID panel))]))
        | inr lpds =>
            (map libraryPanelDashboard.DashboardID lpds, None,
             mkStore (db s)
                     (looked ++ [Exec (SelectConnections
                                         (LibraryPanel.ID panel))]))
        end
    | inr rows =>
        ([], Some (errFoundPanels (List.length rows)), mkStore (db s) looked)
    end.
Proof.
  intros orgID looked. subst looked.
  destruct (sql_find_panel uid orgID (db s)) as [e|[|p [|q rest]]] eqn:Hfind.
  3: { rewrite (getConnectedDashboards_run c uid s p Hfind).
       destruct (sql_find_connections (LibraryPanel.ID p) (db s));
         rewrite <- app_assoc; reflexivity. }
  all: unfold getConnectedDashboards; run; fold orgID; rewrite Hfind; cbn;
    rewrite <- ?app_assoc; reflexivity.
Qed.

Ltac discipline :=
  run; engine_cases;
  (erewrite events_since_eq
    by (cbn [journal snd]; rewrite <- ?app_assoc; cbn [app]; reflexivity));
  reflexivity.

(** X1: every operation issues its select statements first and at most
    one writing statement, which is then its last statement: no operation
    writes twice, and none reads or writes after a write. *)
Theorem operations_read_then_write_once :
  forall c uid (s : SQLStore DB),
    (forall cmd now1 now2,
        reads_then_one_write
          (events_since s (snd (createLibraryPanel c cmd uid now1 now2 s)))
        = true)
    /\ (forall dashboardID now,
           reads_then_one_write
             (events_since s (snd (connectDashboard c uid dashboardID now s)))
           = true)
    /\ reads_then_one_write
         (events_since s (snd (deleteLibraryPanel c uid s))) = true
    /\ (forall dashboardID,
           reads_then_one_write
             (events_since s (snd (disconnectDashboard c uid dashboardID s)))
           = true)
    /\ reads_then_one_write
         (events_since s (snd (lps_getLibraryPanel c uid s))) = true
    /\ reads_then_one_write
         (events_since s (snd (getAllLibraryPanels c s))) = true
    /\ reads_then_one_write
         (events_since s (snd (getConnectedDashboards c uid s))) = true
    /\ (forall cmd now,
           reads_then_one_write
             (events_since s (snd (patchLibraryPanel c cmd uid now s)))
           = true).
Proof.
  intros c uid s.
  split; [intros cmd now1 now2; unfold createLibraryPanel; discipline|].
  split; [intros dashboardID now; unfold connectDashboard; discipline|].
  split; [unfold deleteLibraryPanel; discipline|].
  split; [intros dashboardID; unfold disconnectDashboard; discipline|].
  split; [unfold lps_getLibraryPanel; discipline|].
  split; [unfold getAllLibraryPanels; discipline|].
  split; [|intros cmd now; unfold patchLibraryPanel; discipline].
  rewrite getConnectedDashboards_cases.
  destruct (sql_find_panel _ _ (db s)) as [e|[|p [|q rest]]];
    [| |destruct (sql_find_connections _ (db s))|];
    (erewrite events_since_eq
      by (cbn [journal snd]; rewrite <- ?app_assoc; cbn [app]; reflexivity));
    reflexivity.
Qed.

(** X2: the three reading operations never change the database, whatever
    they return, and issue nothing but select statements, in a plain
    session. *)
Theorem readers_never_write :
  forall c uid (s : SQLStore DB),
    (let s' := snd (lps_getLibraryPanel c uid s) in
     db s' = db s
     /\ exists stmts, events_since s s' = Open Plain Background :: stmts
                      /\ forallb is_select stmts = true)
    /\ (let s' := snd (getAllLibraryPanels c s) in
        db s' = db s
        /\ exists stmts, events_since s s' = Open Plain Background :: stmts
                         /\ forallb is_select stmts = true)
    /\ (let s' := snd (getConnectedDashboards c uid s) in
        db s' = db s
        /\ exists stmts, events_since s s' = Open Plain Background :: stmts
                         /\ forallb is_select stmts = true).
Proof.
  intros c uid s. split; [|split].
  - unfold lps_getLibraryPanel. run. engine_cases.
    all: split; [reflexivity|eexists; split; [journal_eq|reflexivity]].
  - unfold getAllLibraryPanels. run. engine_cases.
    all: split; [reflexivity|eexists; split; [journal_eq|reflexivity]].
  - cbv zeta. rewrite getConnectedDashboards_cases.
    destruct (sql_find_panel _ _ (db s)) as [e|[|p [|q rest]]];
      [| |destruct (sql_find_connections _ (db s))|];
      cbn [snd db];
      (split; [reflexivity|eexists; split; [journal_eq|reflexivity]]).
Qed.

(** X3: a lookup that fails hands back no stored data: a failed get
    returns the zero panel, a failed listing of connected dashboards
    returns the empty list, and a patch whose lookup did not resolve to one
    row returns the zero panel together with an error. *)
Theorem failed_reads_return_zero_values :
  forall c uid (s : SQLStore DB),
    (snd (fst (lps_getLibraryPanel c uid s)) <> None ->
     fst (fst (lps_getLibraryPanel c uid s)) = LibraryPanel.zero)
    /\ (snd (fst (getConnectedDashboards c uid s)) <> None ->
        fst (fst (getConnectedDashboards c uid s)) = [])
    /\ (forall cmd now,
           (forall panelInDB,
               sql_find_panel
                 uid (SignedInUser.OrgId (ReqContext.SignedInUser c)) (db s)
               <> inr [panelInDB]) ->
           fst (fst (patchLibraryPanel c cmd uid now s)) = LibraryPanel.zero
           /\ snd (fst (patchLibraryPanel c cmd uid now s)) <> None).
Proof.
  intros c uid s. split; [|split].
  - unfold lps_getLibraryPanel. run. engine_cases; intros Herr;
      first [reflexivity | contradiction].
  - rewrite getConnectedDashboards_cases.
    destruct (sql_find_panel _ _ (db s)) as [e|[|p [|q rest]]];
      [| |destruct (sql_find_connections _ (db s))|];
      cbn [fst snd]; intros Herr; first [reflexivity | contradiction].
  - intros cmd now Hnot.
    rewrite (patchLibraryPanel_unresolved c cmd uid now s Hnot).
    split; [reflexivity|discriminate].
Qed.

Ltac vocabulary :=
  run; engine_cases; unfold within, lookup_error, storage_error;
  first [ reflexivity
        | match goal with
          | Hmany : (1 <? ?n)%nat = true |- _ => exact Hmany
          end ].

(** X4: the errors each operation can return.  Create: already-exists or
    a storage fault.  Delete: not-found or a storage fault.  Get and the
    listing of connected dashboards: a lookup error (not-found, more than
    one row, storage fault).  Connect: a lookup error, never
    already-exists.  Disconnect: a lookup error or connection-not-found.
    Patch: a lookup error or already-exists.  Listing all panels: a
    storage fault only.  No operation returns a cancellation error. *)
Theorem error_vocabulary :
  forall c uid (s : SQLStore DB),
    (forall cmd now1 now2,
        within (fun e => match e with
                         | errLibraryPanelAlreadyExists => true
                         | _ => storage_error e
                         end)
               (snd (fst (createLibraryPanel c cmd uid now1 now2 s))) = true)
    /\ (forall dashboardID now,
           within lookup_error (fst (connectDashboard c uid dashboardID now s))
           = true)
    /\ within (fun e => match e with
                        | errLibraryPanelNotFound => true
                        | _ => storage_error e
                        end)
              (fst (deleteLibraryPanel c uid s)) = true
    /\ (forall dashboardID,
           within (fun e => match e with
                            | errLibraryPanelDashboardNotFound => true
                            | _ => lookup_error e
                            end)
                  (fst (disconnectDashboard c uid dashboardID s)) = true)
    /\ within lookup_error (snd (fst (lps_getLibraryPanel c uid s))) = true
    /\ within storage_error (snd (fst (getAllLibraryPanels c s))) = true
    /\ within lookup_error (snd (fst (getConnectedDashboards c uid s))) = true
    /\ (forall cmd now,
           within (fun e => match e with
                            | errLibraryPanelAlreadyExists => true
                            | _ => lookup_error e
                            end)
                  (snd (fst (patchLibraryPanel c cmd uid now s))) = true).
Proof.
  intros c uid s.
  split; [intros cmd now1 now2; unfold createLibraryPanel; vocabulary|].
  split; [intros dashboardID now; unfold connectDashboard; vocabulary|].
  split; [unfold deleteLibraryPanel; vocabulary|].
  split; [intros dashboardID; unfold disconnectDashboard; vocabulary|].
  split; [unfold lps_getLibraryPanel; vocabulary|].
  split; [unfold getAllLibraryPanels; vocabulary|].
  split; [|intros cmd now; unfold patchLibraryPanel; vocabulary].
  rewrite getConnectedDashboards_cases.
  destruct (sql_find_panel _ _ (db s)) as [e|[|p [|q rest]]];
    [| |destruct (sql_find_connections _ (db s))|]; reflexivity.
Qed.

(** What the method [lps.getLibraryPanel] returns, by the rows found. *)
Lemma lps_getLibraryPanel_run c uid (s : SQLStore DB) rows :
  let orgID := SignedInUser.OrgId (ReqContext.SignedInUser c) in
  sql_find_panel uid orgID (db s) = inr rows ->
  lps_getLibraryPanel c uid s =
    (match rows with
     | [] => (LibraryPanel.zero, Some errLibraryPanelNotFound)
     | [p] => (p, None)
     | _ :: _ :: _ =>
         (LibraryPanel.zero, Some (errFoundPanels (List.length rows)))
     end,
     mkStore (db s)
             (journal s ++ [Open Plain Background;
                            Exec (SelectPanel uid orgID)])).
Proof.
  intros orgID Hfind. unfold lps_getLibraryPanel. run. fold orgID.
  rewrite Hfind. destruct rows as [|p [|q rest]]; cbn;
    rewrite <- app_assoc; reflexivity.
Qed.

(** X5: when the lookup finds more than one row for (uid, orgID), every
    operation that addresses a panel by UID through the lookup fails with
    the found-N-panels error; connect, disconnect and patch issue no
    statement after the lookup and are rolled back, and get, patch and the
    listing return zero values. *)
Theorem duplicate_rows_block_operations :
  forall c uid (s : SQLStore DB) rows,
    let orgID := SignedInUser.OrgId (ReqContext.SignedInUser c) in
    sql_find_panel uid orgID (db s) = inr rows ->
    (2 <= List.length rows)%nat ->
    let err := Some (errFoundPanels (List.length rows)) in
    let rolled_back :=
      mkStore (db s)
              (journal s ++ [Open Transactional Background;
                             Exec (SelectPanel uid orgID); Rollback]) in
    (forall dashboardID now,
        connectDashboard c uid dashboardID now s = (err, rolled_back))
    /\ (forall dashboardID,
           disconnectDashboard c uid dashboardID s = (err, rolled_back))
    /\ (forall cmd now,
           patchLibraryPanel c cmd uid now s
           = (LibraryPanel.zero, err, rolled_back))
    /\ fst (lps_getLibraryPanel c uid s) = (LibraryPanel.zero, err)
    /\ fst (getConnectedDashboards c uid s) = ([], err).
Proof.
  intros c uid s rows orgID Hfind Hmany err rolled_back.
  destruct rows as [|p [|q rest]]; cbn in Hmany; try lia.
  subst err rolled_back.
  split; [|split; [|split; [|split]]].
  - intros dashboardID now. unfold connectDashboard. run. fold orgID.
    rewrite Hfind. cbn. rewrite <- !app_assoc. reflexivity.
  - intros dashboardID. unfold disconnectDashboard. run. fold orgID.
    rewrite Hfind. cbn. rewrite <- !app_assoc. reflexivity.
  - intros cmd now. rewrite patchLibraryPanel_unresolved.
    + fold orgID. rewrite Hfind. reflexivity.
    + intros panelInDB. fold orgID. rewrite Hfind. discriminate.
  - rewrite (lps_getLibraryPanel_run c uid s _ Hfind). reflexivity.
  - rewrite getConnectedDashboards_cases. fold orgID. rewrite Hfind.
    reflexivity.
Qed.

(** When the lookup does not resolve to a single row, connect and
    disconnect fail and leave the database as it was. *)
Lemma connectDashboard_unresolved c uid dashboardID now (s : SQLStore DB) :
  (forall panel,
      sql_find_panel uid (SignedInUser.OrgId (ReqContext.SignedInUser c))
                     (db s) <> inr [panel]) ->
  fst (connectDashboard c uid dashboardID now s) <> None
  /\ db (snd (connectDashboard c uid dashboardID now s)) = db s.
Proof.
  intros Hnot. unfold connectDashboard. run.
  destruct (sql_find_panel _ _ (db s)) as [e|[|p [|q rest]]]; cbn;
    try (split; [discriminate|reflexivity]).
  exfalso. apply (Hnot p). reflexivity.
Qed.

Lemma disconnectDashboard_unresolved c uid dashboardID (s : SQLStore DB) :
  (forall panel,
      sql_find_panel uid (SignedInUser.OrgId (ReqContext.SignedInUser c))
                     (db s) <> inr [panel]) ->
  fst (disconnectDashboard c uid dashboardID s) <> None
  /\ db (snd (disconnectDashboard c uid dashboardID s)) = db s.
Proof.
  intros Hnot. unfold disconnectDashboard. run.
  destruct (sql_find_panel _ _ (db s)) as [e|[|p [|q rest]]]; cbn;
    try (split; [discriminate|reflexivity]).
  exfalso. apply (Hnot p). reflexivity.
Qed.
End EveryEngine.

(** ** On the in-memory engine *)

Section InMemory.
Import LibraryPanel.

Lemma mem_eta (d : MemDB) :
  mkMem (library_panel d) (library_panel_dashboard d) (library_panel_seq d)
  = d.
Proof. destruct d. reflexivity. Qed.

Lemma unused_uid_finds_nothing uid orgID (rows : list LibraryPanel.t) :
  existsb (fun q => (UID q =? uid)%string) rows = false ->
  filter (panel_is uid orgID) rows = [].
Proof.
  induction rows as [|z rest IH]; [reflexivity|].
  cbn [existsb filter]. intros Hnone. apply orb_false_iff in Hnone.
  destruct Hnone as [Hz Hrest]. unfold panel_is at 1. rewrite Hz.
  cbn [andb]. apply IH. assumption.
Qed.

Lemma filter_around {A} (f : A -> bool) (before after : list A) (x : A) :
  f x = true -> filter f (before ++ x :: after) = [x] ->
  filter f before = [] /\ filter f after = [].
Proof.
  intros Hx. rewrite filter_app. cbn [filter]. rewrite Hx. intros Hall.
  destruct (filter f before) as [|b rest].
  - cbn in Hall. injection Hall as Hafter. split; [reflexivity|assumption].
  - cbn in Hall. injection Hall as _ Hrest.
    destruct rest; discriminate.
Qed.

(** X6: a create whose UID no stored panel carries succeeds and returns
    the panel built from the caller, the command, the UID and the two
    instants, with the key the table assigns.  A get by that UID by the
    same caller then succeeds and returns a panel with that key, UID and
    organization, with the folder id and name the command carried and
    with its model when that is not empty; and the listing of the
    organization's panels then holds a panel with that key and UID beside
    every panel it held before. *)
Theorem create_then_get :
  forall c cmd uid now1 now2 (s : SQLStore MemDB),
    existsb (fun q => (UID q =? uid)%string) (library_panel (db s)) = false ->
    let user := ReqContext.SignedInUser c in
    let r := createLibraryPanel c cmd uid now1 now2 s in
    let panel := fst (fst r) in
    let got := lps_getLibraryPanel c uid (snd r) in
    snd (fst r) = None
    /\ panel = {| ID := library_panel_seq (db s);
                  OrgID := SignedInUser.OrgId user;
                  FolderID := createLibraryPanelCommand.FolderID cmd;
                  UID := uid;
                  Name := createLibraryPanelCommand.Name cmd;
                  Model := createLibraryPanelCommand.Model cmd;
                  Created := now1;
                  Updated := now2;
                  CreatedBy := SignedInUser.UserId user;
                  UpdatedBy := SignedInUser.UserId user |}
    /\ snd (fst got) = None
    /\ ID (fst (fst got)) = ID panel
    /\ UID (fst (fst got)) = uid
    /\ OrgID (fst (fst got)) = SignedInUser.OrgId user
    /\ FolderID (fst (fst got)) = createLibraryPanelCommand.FolderID cmd
    /\ Name (fst (fst got)) = createLibraryPanelCommand.Name cmd
    /\ (forall m,
           createLibraryPanelCommand.Model cmd = Some m ->
           m <> EmptyString ->
           Model (fst (fst got)) = Some m)
    /\ (exists listed,
           In listed (fst (fst (getAllLibraryPanels c (snd r))))
           /\ ID listed = ID panel /\ UID listed = uid)
    /\ (forall q,
           In q (fst (fst (getAllLibraryPanels c s))) ->
           In q (fst (fst (getAllLibraryPanels c (snd r))))).
Proof.
  intros c cmd uid now1 now2 s Hunused user r panel got.
  subst got panel r.
  rewrite createLibraryPanel_run. fold user.
  cbn [sql_insert_panel MemEngine]. unfold mem_insert_panel.
  cbn [UID]. rewrite Hunused. cbn [fst snd db library_panel with_ID ID OrgID
    FolderID UID Name Model Created Updated CreatedBy UpdatedBy].
  split; [reflexivity|]. split; [reflexivity|].
  match goal with
  | |- context [lps_getLibraryPanel c uid ?t] =>
      match goal with
      | |- context [In ?p (fst (fst (getAllLibraryPanels c t)))] => idtac
      | _ => idtac
      end;
      set (after := t)
  end.
  set (panel := {| ID := library_panel_seq (db s);
                   OrgID := SignedInUser.OrgId user;
                   FolderID := createLibraryPanelCommand.FolderID cmd;
                   UID := uid;
                   Name := createLibraryPanelCommand.Name cmd;
                   Model := createLibraryPanelCommand.Model cmd;
                   Created := now1;
                   Updated := now2;
                   CreatedBy := SignedInUser.UserId user;
                   UpdatedBy := SignedInUser.UserId user |}) in *.
  assert (Hget : fst (lps_getLibraryPanel c uid after) = (panel, None)).
  { rewrite (lps_getLibraryPanel_run c uid after [panel]); [reflexivity|].
    subst after.
    cbn [sql_find_panel MemEngine db]. unfold mem_find_panel.
    cbn [library_panel]. rewrite filter_app.
    rewrite (unused_uid_finds_nothing _ _ _ Hunused).
    cbn [filter app]. unfold panel_is, panel. cbn [UID OrgID].
    rewrite String.eqb_refl, Z.eqb_refl. reflexivity. }
  assert (Hall : forall t : SQLStore MemDB,
             fst (fst (getAllLibraryPanels c t))
             = filter (fun p => OrgID p =? SignedInUser.OrgId user)
                      (library_panel (db t))).
  { intros t. unfold getAllLibraryPanels. run. reflexivity. }
  rewrite (surjective_pairing (fst (lps_getLibraryPanel c uid after))) in Hget.
  injection Hget as Hpanel Herr. rewrite Hpanel, Herr.
  repeat (split; [reflexivity|]).
  split; [intros m Hm _; unfold panel; cbn [Model]; exact Hm|].
  rewrite !Hall. subst after. cbn [db library_panel]. rewrite filter_app.
  split.
  - exists panel. split.
    + apply in_or_app. right. cbn [filter with_ID OrgID].
      rewrite Z.eqb_refl. left. reflexivity.
    + split; reflexivity.
  - intros q Hq. apply in_or_app. left. assumption.
Qed.

(** What each writing operation can do to the in-memory tables. *)

Lemma mem_lookup_cases uid orgID (s : SQLStore MemDB) :
  (exists panel,
      filter (panel_is uid orgID) (library_panel (db s)) = [panel])
  \/ (forall panel, sql_find_panel uid orgID (db s) <> inr [panel]).
Proof.
  cbn [sql_find_panel MemEngine]. unfold mem_find_panel.
  destruct (filter (panel_is uid orgID) (library_panel (db s)))
    as [|p [|q rest]].
  - right. intros panel. discriminate.
  - left. exists p. reflexivity.
  - right. intros panel. discriminate.
Qed.

Lemma createLibraryPanel_effect c cmd uid now1 now2 (s : SQLStore MemDB) :
  let r := createLibraryPanel c cmd uid now1 now2 s in
  (snd (fst r) <> None /\ db (snd r) = db s)
  \/ (snd (fst r) = None
      /\ ID (fst (fst r)) = library_panel_seq (db s)
      /\ OrgID (fst (fst r))
         = SignedInUser.OrgId (ReqContext.SignedInUser c)
      /\ UID (fst (fst r)) = uid
      /\ existsb (fun q => (UID q =? uid)%string) (library_panel (db s))
         = false
      /\ db (snd r) = mkMem (library_panel (db s) ++ [fst (fst r)])
                            (library_panel_dashboard (db s))
                            (library_panel_seq (db s) + 1)).
Proof.
  intros r. subst r. rewrite createLibraryPanel_run.
  cbn [sql_insert_panel MemEngine]. unfold mem_insert_panel. cbn [UID].
  destruct (existsb _ (library_panel (db s))) eqn:Hused.
  - left. cbn. split; [discriminate|reflexivity].
  - right. cbn [fst snd db with_ID ID OrgID UID].
    repeat split.
Qed.

Lemma deleteLibraryPanel_effect c uid (s : SQLStore MemDB) :
  let orgID := SignedInUser.OrgId (ReqContext.SignedInUser c) in
  let r := deleteLibraryPanel c uid s in
  (fst r <> None /\ db (snd r) = db s)
  \/ (fst r = None
      /\ matching (panel_is uid orgID) (library_panel (db s)) = 1
      /\ db (snd r) = mkMem (without (panel_is uid orgID)
                                     (library_panel (db s)))
                            (library_panel_dashboard (db s))
                            (library_panel_seq (db s))).
Proof.
  intros orgID r. subst r. rewrite deleteLibraryPanel_run. fold orgID.
  cbn [sql_delete_panel MemEngine]. unfold mem_delete_panel.
  destruct (matching (panel_is uid orgID) (library_panel (db s)) =? 1)
    eqn:Hn.
  - right. apply Z.eqb_eq in Hn. cbn. repeat split. assumption.
  - left. cbn. split; [discriminate|reflexivity].
Qed.

Lemma connectDashboard_effect c uid dashboardID now (s : SQLStore MemDB) :
  let user := ReqContext.SignedInUser c in
  let orgID := SignedInUser.OrgId user in
  let r := connectDashboard c uid dashboardID now s in
  db (snd r) = db s
  \/ (exists panel,
         filter (panel_is uid orgID) (library_panel (db s)) = [panel]
         /\ fst r = None
         /\ matching (connects (ID panel) dashboardID)
                     (library_panel_dashboard (db s)) = 0
         /\ db (snd r)
            = mkMem (library_panel (db s))
                    (library_panel_dashboard (db s)
                     ++ [{| libraryPanelDashboard.DashboardID := dashboardID;
                            libraryPanelDashboard.LibraryPanelID := ID panel;
                            libraryPanelDashboard.Created := now;
                            libraryPanelDashboard.CreatedBy :=
                              SignedInUser.UserId user |}])
                    (library_panel_seq (db s))).
Proof.
  intros user orgID r. subst r.
  destruct (mem_lookup_cases uid orgID s) as [(panel & Hfind)|Hnot].
  - rewrite (connectDashboard_run c uid dashboardID now s panel
               (mem_find_eq _ _ _ _ Hfind)).
    cbn [sql_insert_connection MemEngine]. unfold mem_insert_connection.
    cbn [libraryPanelDashboard.LibraryPanelID
         libraryPanelDashboard.DashboardID].
    destruct (existsb (connects (ID panel) dashboardID)
                      (library_panel_dashboard (db s))) eqn:Hex.
    + left. reflexivity.
    + right. exists panel. apply matching_zero in Hex. cbn.
      repeat split; assumption.
  - left. apply connectDashboard_unresolved. assumption.
Qed.

Lemma disconnectDashboard_effect c uid dashboardID (s : SQLStore MemDB) :
  let orgID := SignedInUser.OrgId (ReqContext.SignedInUser c) in
  let r := disconnectDashboard c uid dashboardID s in
  (fst r <> None /\ db (snd r) = db s)
  \/ (exists panel,
         filter (panel_is uid orgID) (library_panel (db s)) = [panel]
         /\ fst r = None
         /\ matching (connects (ID panel) dashboardID)
                     (library_panel_dashboard (db s)) = 1
         /\ db (snd r)
            = mkMem (library_panel (db s))
                    (without (connects (ID panel) dashboardID)
                             (library_panel_dashboard (db s)))
                    (library_panel_seq (db s))).
Proof.
  intros orgID r. subst r.
  destruct (mem_lookup_cases uid orgID s) as [(panel & Hfind)|Hnot].
  - rewrite (disconnectDashboard_run c uid dashboardID s panel
               (mem_find_eq _ _ _ _ Hfind)).
    cbn [sql_delete_connection MemEngine]. unfold mem_delete_connection.
    destruct (matching (connects (ID panel) dashboardID)
                       (library_panel_dashboard (db s)) =? 1) eqn:Hn.
    + right. exists panel. apply Z.eqb_eq in Hn. cbn.
      repeat split; assumption.
    + left. cbn. split; [discriminate|reflexivity].
  - left. apply disconnectDashboard_unresolved. assumption.
Qed.

Lemma patchLibraryPanel_effect c cmd uid now (s : SQLStore MemDB) :
  let orgID := SignedInUser.OrgId (ReqContext.SignedInUser c) in
  let r := patchLibraryPanel c cmd uid now s in
  (snd (fst r) <> None /\ db (snd r) = db s)
  \/ (exists panelInDB before after,
         filter (panel_is uid orgID) (library_panel (db s)) = [panelInDB]
         /\ snd (fst r) = None
         /\ ID (fst (fst r)) = ID panelInDB
         /\ OrgID (fst (fst r)) = orgID
         /\ UID (fst (fst r)) = uid
         /\ library_panel (db s) = before ++ panelInDB :: after
         /\ db (snd r) = mkMem (before ++ fst (fst r) :: after)
                               (library_panel_dashboard (db s))
                               (library_panel_seq (db s))).
Proof.
  intros orgID r. subst r.
  destruct (mem_lookup_cases uid orgID s) as [(panel & Hfind)|Hnot].
  - pose proof (patchLibraryPanel_run c cmd uid now s panel
                  (mem_find_eq _ _ _ _ Hfind)) as Hrun.
    cbv zeta in Hrun. rewrite Hrun. clear Hrun. fold orgID.
    match goal with
    | |- context [sql_update_panel _ ?l _] => set (merged := l)
    end.
    cbn [sql_update_panel MemEngine]. unfold mem_update_panel.
    match goal with
    | |- context [if ?b then inl _ else _] => destruct b
    end; [left; cbn; split; [discriminate|reflexivity]|].
    destruct (matching (has_ID (ID panel)) (library_panel (db s)) =? 1)
      eqn:Hn; [|left; cbn; split; [discriminate|reflexivity]].
    apply Z.eqb_eq in Hn. right.
    destruct (matching_one_replace
                (has_ID (ID panel)) (with_ID (ID panel) merged) _ Hn)
      as (before & x & after & Hrows & Hsel & Hmap).
    assert (x = panel) as ->.
    { destruct (filter_singleton_matching _ _ _ Hfind) as (_ & Hin & _).
      assert (In panel (filter (has_ID (ID panel)) (library_panel (db s))))
        as Hx.
      { apply filter_In. split; [assumption|].
        unfold has_ID. apply Z.eqb_refl. }
      rewrite Hsel in Hx. destruct Hx as [->|[]]. reflexivity. }
    exists panel, before, after. cbn [fst snd db].
    split; [assumption|]. split; [reflexivity|]. split; [reflexivity|].
    split; [reflexivity|]. split; [reflexivity|]. split; [assumption|].
    rewrite Hmap. reflexivity.
  - left. rewrite (patchLibraryPanel_unresolved c cmd uid now s Hnot).
    cbn. split; [discriminate|reflexivity].
Qed.

(** X7: a create whose UID a stored panel already carries, in whatever
    organization, fails with already-exists, leaves the database as it
    was, and hands back the panel it built with no key assigned. *)
Theorem create_collides_on_used_uid :
  forall c cmd uid now1 now2 (s : SQLStore MemDB),
    existsb (fun q => (UID q =? uid)%string) (library_panel (db s)) = true ->
    let r := createLibraryPanel c cmd uid now1 now2 s in
    snd (fst r) = Some errLibraryPanelAlreadyExists
    /\ db (snd r) = db s
    /\ ID (fst (fst r)) = 0
    /\ UID (fst (fst r)) = uid.
Proof.
  intros c cmd uid now1 now2 s Hused r. subst r.
  rewrite createLibraryPanel_run.
  cbn [sql_insert_panel MemEngine]. unfold mem_insert_panel. cbn [UID].
  rewrite Hused. cbn. repeat split.
Qed.

Lemma of_other_orgs_without uid orgID (rows : list LibraryPanel.t) :
  of_other_orgs orgID (without (panel_is uid orgID) rows)
  = of_other_orgs orgID rows.
Proof.
  unfold of_other_orgs, without, panel_is.
  induction rows as [|z rest IH]; [reflexivity|].
  cbn [filter].
  destruct (UID z =? uid)%string, (OrgID z =? orgID) eqn:Horg;
    cbn [andb negb filter]; rewrite ?Horg; cbn [negb]; rewrite IH;
    reflexivity.
Qed.

Lemma of_other_orgs_replace orgID before after (p q : LibraryPanel.t) :
  OrgID p = orgID -> OrgID q = orgID ->
  of_other_orgs orgID (before ++ q :: after)
  = of_other_orgs orgID (before ++ p :: after).
Proof.
  intros Hp Hq. unfold of_other_orgs. rewrite !filter_app. cbn [filter].
  rewrite Hp, Hq, Z.eqb_refl. reflexivity.
Qed.

(** X8: no operation of a caller changes, or shows, a panel of another
    organization: the rows of other organizations are the same after
    create, connect, delete, disconnect and patch; the listing of panels
    returns exactly the stored rows of the caller's organization; and a
    panel returned by get belongs to the caller's organization. *)
Theorem other_organizations_untouched :
  forall c uid (s : SQLStore MemDB),
    let orgID := SignedInUser.OrgId (ReqContext.SignedInUser c) in
    let others (t : SQLStore MemDB) :=
      of_other_orgs orgID (library_panel (db t)) in
    (forall cmd now1 now2,
        others (snd (createLibraryPanel c cmd uid now1 now2 s)) = others s)
    /\ (forall dashboardID now,
           others (snd (connectDashboard c uid dashboardID now s)) = others s)
    /\ others (snd (deleteLibraryPanel c uid s)) = others s
    /\ (forall dashboardID,
           others (snd (disconnectDashboard c uid dashboardID s)) = others s)
    /\ (forall cmd now,
           others (snd (patchLibraryPanel c cmd uid now s)) = others s)
    /\ (forall p,
           In p (fst (fst (getAllLibraryPanels c s)))
           <-> In p (library_panel (db s)) /\ OrgID p = orgID)
    /\ (forall p,
           fst (lps_getLibraryPanel c uid s) = (p, None) ->
           In p (library_panel (db s)) /\ OrgID p = orgID /\ UID p = uid).
Proof.
  intros c uid s orgID others. subst others. cbv beta.
  split; [|split; [|split; [|split; [|split; [|split]]]]].
  - intros cmd now1 now2.
    destruct (createLibraryPanel_effect c cmd uid now1 now2 s)
      as [(_ & ->)|(_ & _ & Horg & _ & _ & ->)]; [reflexivity|].
    cbn [library_panel]. unfold of_other_orgs. rewrite filter_app.
    cbn [filter]. rewrite Horg. fold orgID. rewrite Z.eqb_refl.
    cbn [negb]. apply app_nil_r.
  - intros dashboardID now.
    destruct (connectDashboard_effect c uid dashboardID now s)
      as [->|(panel & _ & _ & _ & ->)]; reflexivity.
  - destruct (deleteLibraryPanel_effect c uid s) as [(_ & ->)|(_ & _ & ->)];
      [reflexivity|].
    cbn [library_panel]. apply of_other_orgs_without.
  - intros dashboardID.
    destruct (disconnectDashboard_effect c uid dashboardID s)
      as [(_ & ->)|(panel & _ & _ & _ & ->)]; reflexivity.
  - intros cmd now.
    destruct (patchLibraryPanel_effect c cmd uid now s)
      as [(_ & ->)|(panel & before & after & Hfind & _ & _ & Horg & _
                    & Hrows & ->)]; [reflexivity|].
    cbn [library_panel]. rewrite Hrows.
    apply of_other_orgs_replace; [|assumption].
    destruct (filter_singleton_matching _ _ _ Hfind) as (_ & _ & Hmatch).
    unfold panel_is in Hmatch. apply andb_true_iff in Hmatch.
    apply Z.eqb_eq. apply Hmatch.
  - intros p. unfold getAllLibraryPanels. run.
    cbn [sql_select_panels MemEngine]. unfold mem_select_panels.
    cbn [fst app]. fold orgID. rewrite filter_In, Z.eqb_eq. reflexivity.
  - intros p Hget.
    rewrite (lps_getLibraryPanel_run
               c uid s (filter (panel_is uid orgID) (library_panel (db s)))
               (mem_find_eq _ _ _ _ eq_refl)) in Hget.
    cbn [fst] in Hget.
    destruct (filter (panel_is uid orgID) (library_panel (db s)))
      as [|q [|q' rest]] eqn:Hfind; try discriminate.
    injection Hget as ->.
    destruct (filter_singleton_matching _ _ _ Hfind) as (_ & Hin & Hmatch).
    unfold panel_is in Hmatch. apply andb_true_iff in Hmatch.
    destruct Hmatch as [Hu Ho].
    apply String.eqb_eq in Hu. apply Z.eqb_eq in Ho. repeat split; assumption.
Qed.

Lemma without_appended {A} (f : A -> bool) (l : list A) (x : A) :
  f x = true -> matching f l = 0 -> without f (l ++ [x]) = l.
Proof.
  intros Hx Hzero. unfold without. rewrite filter_app. cbn [filter].
  rewrite Hx. cbn [negb]. rewrite app_nil_r.
  apply (matching_zero_without f l Hzero).
Qed.

(** X9: connecting a pair that was not connected and then disconnecting it
    succeeds both times and gives back the database exactly as it was. *)
Theorem connect_then_disconnect_restores :
  forall c uid dashboardID now (s : SQLStore MemDB) panel,
    let orgID := SignedInUser.OrgId (ReqContext.SignedInUser c) in
    filter (panel_is uid orgID) (library_panel (db s)) = [panel] ->
    matching (connects (ID panel) dashboardID)
             (library_panel_dashboard (db s)) = 0 ->
    let r1 := connectDashboard c uid dashboardID now s in
    let r2 := disconnectDashboard c uid dashboardID (snd r1) in
    fst r1 = None /\ fst r2 = None /\ db (snd r2) = db s.
Proof.
  intros c uid dashboardID now s panel orgID Hfind Hzero r1 r2.
  subst r2 r1.
  set (lpd := {| libraryPanelDashboard.DashboardID := dashboardID;
                 libraryPanelDashboard.LibraryPanelID := ID panel;
                 libraryPanelDashboard.Created := now;
                 libraryPanelDashboard.CreatedBy :=
                   SignedInUser.UserId (ReqContext.SignedInUser c) |}).
  assert (Hlpd : connects (ID panel) dashboardID lpd = true).
  { unfold connects, lpd.
    cbn [libraryPanelDashboard.LibraryPanelID
         libraryPanelDashboard.DashboardID].
    rewrite !Z.eqb_refl. reflexivity. }
  assert (Hone : matching (connects (ID panel) dashboardID)
                          (library_panel_dashboard (db s) ++ [lpd]) = 1).
  { rewrite matching_app, Hzero, matching_cons, Hlpd. reflexivity. }
  rewrite (connectDashboard_run c uid dashboardID now s panel
             (mem_find_eq _ _ _ _ Hfind)).
  fold lpd.
  cbn [sql_insert_connection MemEngine]. unfold mem_insert_connection.
  replace (existsb (connects (libraryPanelDashboard.LibraryPanelID lpd)
                             (libraryPanelDashboard.DashboardID lpd))
                   (library_panel_dashboard (db s)))
    with false by (symmetry; apply matching_zero; exact Hzero).
  cbn [fst snd]. split; [reflexivity|].
  match goal with
  | |- context [disconnectDashboard c uid dashboardID ?t] =>
      rewrite (disconnectDashboard_run c uid dashboardID t panel
                 (mem_find_eq uid orgID t [panel] Hfind))
  end.
  cbn [sql_delete_connection MemEngine db]. unfold mem_delete_connection.
  cbn [library_panel library_panel_dashboard library_panel_seq].
  rewrite Hone. cbn [Z.eqb Pos.eqb fst snd db].
  split; [reflexivity|].
  rewrite (without_appended _ _ _ Hlpd Hzero). apply mem_eta.
Qed.

(** The listing for a resolved panel: the dashboards of the rows that
    refer to its key, in table order. *)
Lemma getConnectedDashboards_resolved c uid (s : SQLStore MemDB) panel :
  filter (panel_is uid (SignedInUser.OrgId (ReqContext.SignedInUser c)))
         (library_panel (db s)) = [panel] ->
  fst (getConnectedDashboards c uid s)
  = (map libraryPanelDashboard.DashboardID
         (filter (of_panel (ID panel)) (library_panel_dashboard (db s))),
     None).
Proof.
  intros Hfind.
  rewrite (getConnectedDashboards_run c uid s panel
             (mem_find_eq _ _ _ _ Hfind)).
  reflexivity.
Qed.

Lemma listed_iff_connected panelID d (conns : list libraryPanelDashboard.t) :
  In d (map libraryPanelDashboard.DashboardID
            (filter (of_panel panelID) conns))
  <-> existsb (connects panelID d) conns = true.
Proof.
  rewrite in_map_iff, existsb_exists. unfold connects, of_panel. split.
  - intros (x & Hd & Hx). apply filter_In in Hx. destruct Hx as [Hin Hp].
    exists x. split; [assumption|]. rewrite Hp, Hd, Z.eqb_refl. reflexivity.
  - intros (x & Hin & Hboth). apply andb_true_iff in Hboth.
    destruct Hboth as [Hp Hd]. apply Z.eqb_eq in Hd.
    exists x. split; [assumption|]. apply filter_In. split; assumption.
Qed.

Lemma listed_without_repeats panelID (conns : list libraryPanelDashboard.t) :
  distinct same_pair (map connection_key conns) = true ->
  NoDup (map libraryPanelDashboard.DashboardID
             (filter (of_panel panelID) conns)).
Proof.
  induction conns as [|x rest IH]; [intros _; constructor|].
  cbn [map distinct filter]. intros Hd.
  apply andb_true_iff in Hd. destruct Hd as [Hfresh Hd].
  apply negb_true_iff in Hfresh.
  destruct (of_panel panelID x) eqn:Hx; [|apply IH; assumption].
  cbn [map]. constructor; [|apply IH; assumption].
  intros Hin. apply listed_iff_connected in Hin.
  apply existsb_exists in Hin. destruct Hin as (y & Hy & Hsame).
  assert (existsb (same_pair (connection_key x)) (map connection_key rest)
          = true) as Habs.
  { apply existsb_exists. exists (connection_key y).
    split; [apply in_map; assumption|].
    unfold connects in Hsame. apply andb_true_iff in Hsame.
    destruct Hsame as [Hp Hdash]. unfold of_panel in Hx.
    apply Z.eqb_eq in Hp, Hdash, Hx.
    apply same_pair_spec. unfold connection_key. congruence. }
  congruence.
Qed.

(** X10: for a resolved panel the listing of connected dashboards
    succeeds; a dashboard is listed exactly when a connection row for
    (panel key, dashboard) is stored; and in consistent tables no
    dashboard is listed twice. *)
Theorem listing_is_the_set_of_connections :
  forall c uid (s : SQLStore MemDB) panel,
    let orgID := SignedInUser.OrgId (ReqContext.SignedInUser c) in
    filter (panel_is uid orgID) (library_panel (db s)) = [panel] ->
    let r := getConnectedDashboards c uid s in
    snd (fst r) = None
    /\ (forall d,
           In d (fst (fst r))
           <-> existsb (connects (ID panel) d)
                       (library_panel_dashboard (db s)) = true)
    /\ (consistent (db s) = true -> NoDup (fst (fst r))).
Proof.
  intros c uid s panel orgID Hfind r. subst r.
  rewrite (surjective_pairing (fst (getConnectedDashboards c uid s))).
  rewrite (getConnectedDashboards_resolved c uid s panel Hfind).
  cbn [fst snd]. split; [reflexivity|]. split.
  - intros d. apply listed_iff_connected.
  - intros Hc. apply consistent_parts in Hc.
    apply listed_without_repeats. apply Hc.
Qed.

Lemma connects_two panelID d d' (x : libraryPanelDashboard.t) :
  connects panelID d x = true ->
  connects panelID d' x = true -> d' = d.
Proof.
  unfold connects. rewrite !andb_true_iff, !Z.eqb_eq.
  intros [_ H1] [_ H2]. congruence.
Qed.

(** X11: for a resolved panel, connect succeeds and afterwards the
    dashboard is listed, with every other dashboard listed exactly as
    before; and after a successful disconnect the dashboard is no longer
    listed, with every other dashboard listed exactly as before. *)
Theorem connect_lists_and_disconnect_unlists :
  forall c uid dashboardID now (s : SQLStore MemDB) panel,
    let orgID := SignedInUser.OrgId (ReqContext.SignedInUser c) in
    filter (panel_is uid orgID) (library_panel (db s)) = [panel] ->
    let listed (t : SQLStore MemDB) d :=
      In d (fst (fst (getConnectedDashboards c uid t))) in
    (fst (connectDashboard c uid dashboardID now s) = None
     /\ forall d,
         listed (snd (connectDashboard c uid dashboardID now s)) d
         <-> d = dashboardID \/ listed s d)
    /\ (fst (disconnectDashboard c uid dashboardID s) = None ->
        forall d,
          listed (snd (disconnectDashboard c uid dashboardID s)) d
          <-> d <> dashboardID /\ listed s d).
Proof.
  intros c uid dashboardID now s panel orgID Hfind listed. subst listed.
  cbv beta.
  assert (Hbefore : forall d,
             In d (fst (fst (getConnectedDashboards c uid s)))
             <-> existsb (connects (ID panel) d)
                         (library_panel_dashboard (db s)) = true).
  { intros d. rewrite (getConnectedDashboards_resolved c uid s panel Hfind).
    apply listed_iff_connected. }
  split.
  - rewrite (connectDashboard_run c uid dashboardID now s panel
               (mem_find_eq _ _ _ _ Hfind)).
    cbn [sql_insert_connection MemEngine]. unfold mem_insert_connection.
    cbn [libraryPanelDashboard.LibraryPanelID
         libraryPanelDashboard.DashboardID].
    destruct (existsb (connects (ID panel) dashboardID)
                      (library_panel_dashboard (db s))) eqn:Hex;
      cbn [mem_is_unique_violation ErrDuplicateEntry
           IsUniqueConstraintViolation MemEngine Z.eqb Pos.eqb fst snd];
      (split; [reflexivity|]); intros d.
    + match goal with
      | |- In d (fst (fst (getConnectedDashboards c uid ?t))) <-> _ =>
          rewrite (getConnectedDashboards_resolved c uid t panel Hfind)
      end.
      cbn [fst db]. rewrite listed_iff_connected, Hbefore. split.
      * intros Hd. right. assumption.
      * intros [->|Hd]; assumption.
    + match goal with
      | |- In d (fst (fst (getConnectedDashboards c uid ?t))) <-> _ =>
          rewrite (getConnectedDashboards_resolved c uid t panel Hfind)
      end.
      cbn [fst db library_panel_dashboard].
      rewrite listed_iff_connected, Hbefore, existsb_app.
      cbn [existsb]. unfold connects at 2.
      cbn [libraryPanelDashboard.LibraryPanelID
           libraryPanelDashboard.DashboardID].
      rewrite Z.eqb_refl, orb_false_r. cbn [andb].
      rewrite orb_true_iff, Z.eqb_eq. split.
      * intros [Hd|Hd]; [right; assumption|left; symmetry; assumption].
      * intros [Hd|Hd]; [right; symmetry; assumption|left; assumption].
  - rewrite (disconnectDashboard_run c uid dashboardID s panel
               (mem_find_eq _ _ _ _ Hfind)).
    cbn [sql_delete_connection MemEngine]. unfold mem_delete_connection.
    destruct (matching (connects (ID panel) dashboardID)
                       (library_panel_dashboard (db s)) =? 1) eqn:Hn;
      cbn [fst snd]; [|discriminate].
    intros _ d.
    match goal with
    | |- In d (fst (fst (getConnectedDashboards c uid ?t))) <-> _ =>
        rewrite (getConnectedDashboards_resolved c uid t panel Hfind)
    end.
    cbn [fst db library_panel_dashboard].
    rewrite listed_iff_connected, Hbefore. unfold without.
    rewrite !existsb_exists. split.
    + intros (x & Hx & Hd). apply filter_In in Hx. destruct Hx as [Hin Hnot].
      apply negb_true_iff in Hnot. split.
      * intros ->. congruence.
      * exists x. split; assumption.
    + intros (Hne & x & Hin & Hd). exists x. split; [|assumption].
      apply filter_In. split; [assumption|]. apply negb_true_iff.
      apply not_true_iff_false. intros Hboth. apply Hne.
      exact (connects_two _ _ _ _ Hboth Hd).
Qed.

(** X12: when more than one row matches (uid, orgID), delete removes
    nothing: the statement would affect more than one row, so the
    operation reports not-found, although the rows exist, and is rolled
    back. *)
Theorem delete_refuses_duplicates :
  forall c uid (s : SQLStore MemDB),
    let orgID := SignedInUser.OrgId (ReqContext.SignedInUser c) in
    2 <= matching (panel_is uid orgID) (library_panel (db s)) ->
    fst (deleteLibraryPanel c uid s) = Some errLibraryPanelNotFound
    /\ db (snd (deleteLibraryPanel c uid s)) = db s.
Proof.
  intros c uid s orgID Hmany.
  rewrite deleteLibraryPanel_run. fold orgID.
  cbn [sql_delete_panel MemEngine]. unfold mem_delete_panel.
  destruct (matching (panel_is uid orgID) (library_panel (db s)) =? 1)
    eqn:Hn.
  - apply Z.eqb_eq in Hn. lia.
  - split; reflexivity.
Qed.

Lemma filter_without {A} (f : A -> bool) (l : list A) :
  filter f (without f l) = [].
Proof.
  unfold without. induction l as [|x rest IH]; [reflexivity|].
  cbn [filter]. destruct (f x) eqn:Hx; cbn [negb]; [assumption|].
  cbn [filter]. rewrite Hx. assumption.
Qed.

(** X13: after a successful delete the panel is gone for every operation
    that addresses it: get, a second delete, connect, disconnect, patch
    and the listing of its dashboards all fail with not-found; the
    connection rows that referred to it are still stored. *)
Theorem deleted_panel_is_gone :
  forall c uid (s : SQLStore MemDB) panel,
    let orgID := SignedInUser.OrgId (ReqContext.SignedInUser c) in
    filter (panel_is uid orgID) (library_panel (db s)) = [panel] ->
    let s1 := snd (deleteLibraryPanel c uid s) in
    fst (deleteLibraryPanel c uid s) = None
    /\ fst (lps_getLibraryPanel c uid s1)
       = (LibraryPanel.zero, Some errLibraryPanelNotFound)
    /\ fst (deleteLibraryPanel c uid s1) = Some errLibraryPanelNotFound
    /\ (forall dashboardID now,
           fst (connectDashboard c uid dashboardID now s1)
           = Some errLibraryPanelNotFound)
    /\ (forall dashboardID,
           fst (disconnectDashboard c uid dashboardID s1)
           = Some errLibraryPanelNotFound)
    /\ (forall cmd now,
           fst (patchLibraryPanel c cmd uid now s1)
           = (LibraryPanel.zero, Some errLibraryPanelNotFound))
    /\ fst (getConnectedDashboards c uid s1)
       = ([], Some errLibraryPanelNotFound)
    /\ filter (of_panel (ID panel)) (library_panel_dashboard (db s1))
       = filter (of_panel (ID panel)) (library_panel_dashboard (db s)).
Proof.
  intros c uid s panel orgID Hfind s1.
  destruct (filter_singleton_matching _ _ _ Hfind) as (Hone & _ & _).
  assert (Hs1 : s1 = mkStore
                       (mkMem (without (panel_is uid orgID)
                                       (library_panel (db s)))
                              (library_panel_dashboard (db s))
                              (library_panel_seq (db s)))
                       (journal s ++ [Open Transactional Background;
                                      Exec (DeletePanel uid orgID); Commit])
               /\ fst (deleteLibraryPanel c uid s) = None).
  { subst s1. rewrite deleteLibraryPanel_run. fold orgID.
    cbn [sql_delete_panel MemEngine]. unfold mem_delete_panel.
    rewrite Hone. cbn. rewrite <- app_assoc. split; reflexivity. }
  destruct Hs1 as [Hs1 Hdel].
  assert (Hgone : sql_find_panel uid orgID (db s1) = inr []).
  { rewrite Hs1. cbn [sql_find_panel MemEngine db]. unfold mem_find_panel.
    cbn [library_panel]. rewrite filter_without. reflexivity. }
  clearbody s1.
  split; [assumption|]. split.
  { rewrite (lps_getLibraryPanel_run c uid s1 [] Hgone). reflexivity. }
  split.
  { rewrite deleteLibraryPanel_run. fold orgID.
    cbn [sql_delete_panel MemEngine]. unfold mem_delete_panel.
    rewrite Hs1. cbn [db library_panel]. unfold matching.
    rewrite filter_without. reflexivity. }
  split.
  { intros dashboardID now. unfold connectDashboard. run. fold orgID.
    rewrite Hgone. reflexivity. }
  split.
  { intros dashboardID. unfold disconnectDashboard. run. fold orgID.
    rewrite Hgone. reflexivity. }
  split.
  { intros cmd now. rewrite patchLibraryPanel_unresolved.
    - fold orgID. rewrite Hgone. reflexivity.
    - intros p. fold orgID. rewrite Hgone. discriminate. }
  split.
  { rewrite getConnectedDashboards_cases. fold orgID. rewrite Hgone.
    reflexivity. }
  rewrite Hs1. reflexivity.
Qed.

Lemma keys_assigned_later (d : MemDB) rows conns seq :
  keys_assigned d = true ->
  library_panel_seq d <= seq ->
  (forall x, In x conns -> In x (library_panel_dashboard d)) ->
  keys_assigned (mkMem rows conns seq) = true.
Proof.
  unfold keys_assigned. cbn [library_panel_dashboard library_panel_seq].
  rewrite !forallb_forall. intros Hk Hle Hsub x Hx.
  specialize (Hk x (Hsub x Hx)). apply Z.ltb_lt in Hk. apply Z.ltb_lt. lia.
Qed.

(** X14: every writing operation keeps both invariants of the tables: they
    stay consistent (keys and UIDs distinct, keys below the next key, no
    pair connected twice) and every connection row keeps referring to a
    key the panel table has assigned. *)
Theorem writers_keep_the_invariants :
  forall c uid (s : SQLStore MemDB),
    consistent (db s) = true ->
    keys_assigned (db s) = true ->
    let kept (t : SQLStore MemDB) :=
      consistent (db t) = true /\ keys_assigned (db t) = true in
    (forall cmd now1 now2,
        kept (snd (createLibraryPanel c cmd uid now1 now2 s)))
    /\ (forall dashboardID now,
           kept (snd (connectDashboard c uid dashboardID now s)))
    /\ kept (snd (deleteLibraryPanel c uid s))
    /\ (forall dashboardID,
           kept (snd (disconnectDashboard c uid dashboardID s)))
    /\ (forall cmd now, kept (snd (patchLibraryPanel c cmd uid now s))).
Proof.
  intros c uid s Hc Hk kept. subst kept. cbv beta.
  destruct (operations_keep_consistency c uid s Hc)
    as (Ccreate & Cconnect & Cdelete & Cdisconnect & Cpatch).
  split; [|split; [|split; [|split]]].
  - intros cmd now1 now2. split; [apply Ccreate|].
    destruct (createLibraryPanel_effect c cmd uid now1 now2 s)
      as [(_ & ->)|(_ & _ & _ & _ & _ & ->)]; [assumption|].
    apply (keys_assigned_later (db s)); [assumption|lia|tauto].
  - intros dashboardID now. split; [apply Cconnect|].
    destruct (connectDashboard_effect c uid dashboardID now s)
      as [->|(panel & Hfind & _ & _ & ->)]; [assumption|].
    unfold keys_assigned in *.
    cbn [library_panel_dashboard library_panel_seq].
    rewrite forallb_app, Hk. cbn [forallb andb
      libraryPanelDashboard.LibraryPanelID].
    rewrite andb_true_r.
    destruct (filter_singleton_matching _ _ _ Hfind) as (_ & Hin & _).
    apply consistent_parts in Hc. destruct Hc as (_ & Hseq & _).
    rewrite forallb_forall in Hseq. apply (Hseq panel Hin).
  - split; [apply Cdelete|].
    destruct (deleteLibraryPanel_effect c uid s) as [(_ & ->)|(_ & _ & ->)];
      [assumption|].
    apply (keys_assigned_later (db s)); [assumption|lia|tauto].
  - intros dashboardID. split; [apply Cdisconnect|].
    destruct (disconnectDashboard_effect c uid dashboardID s)
      as [(_ & ->)|(panel & _ & _ & _ & ->)]; [assumption|].
    apply (keys_assigned_later (db s)); [assumption|lia|].
    intros x Hx. unfold without in Hx. apply filter_In in Hx. tauto.
  - intros cmd now. split; [apply Cpatch|].
    destruct (patchLibraryPanel_effect c cmd uid now s)
      as [(_ & ->)|(panel & before & after & _ & _ & _ & _ & _ & _ & ->)];
      [assumption|].
    apply (keys_assigned_later (db s)); [assumption|lia|tauto].
Qed.

(** X15: in tables that satisfy the invariants, a newly created panel has
    a key larger than that of every stored panel, so it shares no key with
    a panel stored now or deleted earlier; it starts with no connected
    dashboard, whatever connection rows deleted panels left behind; and
    disconnecting it from any dashboard fails with
    connection-not-found. *)
Theorem created_panel_starts_unconnected :
  forall c cmd uid now1 now2 (s : SQLStore MemDB),
    consistent (db s) = true ->
    keys_assigned (db s) = true ->
    existsb (fun q => (UID q =? uid)%string) (library_panel (db s)) = false ->
    let r := createLibraryPanel c cmd uid now1 now2 s in
    (forall q, In q (library_panel (db s)) -> ID q < ID (fst (fst r)))
    /\ (forall x, In x (library_panel_dashboard (db s)) ->
                  libraryPanelDashboard.LibraryPanelID x <> ID (fst (fst r)))
    /\ fst (getConnectedDashboards c uid (snd r)) = ([], None)
    /\ (forall dashboardID,
           fst (disconnectDashboard c uid dashboardID (snd r))
           = Some errLibraryPanelDashboardNotFound).
Proof.
  intros c cmd uid now1 now2 s Hc Hk Hunused r.
  destruct (createLibraryPanel_effect c cmd uid now1 now2 s)
    as [(Herr & _)|(_ & Hid & Horg & Huid & _ & Hdb)].
  { exfalso. apply Herr.
    subst r. rewrite createLibraryPanel_run.
    cbn [sql_insert_panel MemEngine]. unfold mem_insert_panel. cbn [UID].
    rewrite Hunused. reflexivity. }
  fold r in Hid, Horg, Huid, Hdb.
  assert (Hfresh : forall x, In x (library_panel_dashboard (db s)) ->
                             libraryPanelDashboard.LibraryPanelID x
                             <> ID (fst (fst r))).
  { intros x Hx. unfold keys_assigned in Hk. rewrite forallb_forall in Hk.
    specialize (Hk x Hx). apply Z.ltb_lt in Hk. lia. }
  assert (Hnone : forall f : libraryPanelDashboard.t -> bool,
             (forall x, f x = true ->
                        libraryPanelDashboard.LibraryPanelID x
                        = ID (fst (fst r))) ->
             filter f (library_panel_dashboard (db s)) = []).
  { intros f Hf.
    destruct (filter f (library_panel_dashboard (db s))) as [|x rest] eqn:Hx;
      [reflexivity|].
    assert (In x (filter f (library_panel_dashboard (db s)))) as Hin
        by (rewrite Hx; left; reflexivity).
    apply filter_In in Hin. destruct Hin as [Hin Hfx].
    exfalso. apply (Hfresh x Hin). apply Hf. assumption. }
  assert (Hfind : filter (panel_is uid (SignedInUser.OrgId
                                          (ReqContext.SignedInUser c)))
                         (library_panel (db (snd r))) = [fst (fst r)]).
  { rewrite Hdb. cbn [library_panel]. rewrite filter_app.
    rewrite (unused_uid_finds_nothing _ _ _ Hunused). cbn [filter app].
    unfold panel_is. rewrite Huid, Horg, String.eqb_refl, Z.eqb_refl.
    reflexivity. }
  split.
  { intros q Hq. apply consistent_parts in Hc. destruct Hc as (_ & Hseq & _).
    rewrite forallb_forall in Hseq. specialize (Hseq q Hq).
    apply Z.ltb_lt in Hseq. lia. }
  split; [assumption|]. split.
  { rewrite (getConnectedDashboards_resolved c uid (snd r) _ Hfind).
    rewrite Hdb. cbn [library_panel_dashboard]. rewrite Hnone; [reflexivity|].
    intros x Hx. unfold of_panel in Hx. apply Z.eqb_eq. assumption. }
  intros dashboardID.
  rewrite (disconnectDashboard_run c uid dashboardID (snd r) _
             (mem_find_eq _ _ _ _ Hfind)).
  cbn [sql_delete_connection MemEngine]. unfold mem_delete_connection.
  rewrite Hdb. cbn [library_panel_dashboard]. unfold matching.
  rewrite Hnone; [reflexivity|].
  intros x Hx. unfold connects in Hx. apply andb_true_iff in Hx.
  apply Z.eqb_eq. apply Hx.
Qed.

(** The panel a patch of a resolved panel returns, field by field. *)
Lemma patchLibraryPanel_returns c cmd uid now (s : SQLStore MemDB) panelInDB :
  let user := ReqContext.SignedInUser c in
  let orgID := SignedInUser.OrgId user in
  filter (panel_is uid orgID) (library_panel (db s)) = [panelInDB] ->
  fst (fst (patchLibraryPanel c cmd uid now s))
  = {| ID := ID panelInDB;
       OrgID := orgID;
       FolderID := if patchLibraryPanelCommand.FolderID cmd =? 0
                   then FolderID panelInDB
                   else patchLibraryPanelCommand.FolderID cmd;
       UID := uid;
       Name := if (patchLibraryPanelCommand.Name cmd =? EmptyString)%string
               then Name panelInDB
               else patchLibraryPanelCommand.Name cmd;
       Model := match patchLibraryPanelCommand.Model cmd with
                | None => Model panelInDB
                | Some m => Some m
                end;
       Created := Created panelInDB;
       CreatedBy := CreatedBy panelInDB;
       Updated := now;
       UpdatedBy := SignedInUser.UserId user |}.
Proof.
  intros user orgID Hfind.
  pose proof (patchLibraryPanel_run c cmd uid now s panelInDB
                (mem_find_eq _ _ _ _ Hfind)) as Hrun.
  cbv zeta in Hrun. rewrite Hrun. clear Hrun.
  match goal with
  | |- context [sql_update_panel ?i ?l ?d] =>
      destruct (sql_update_panel i l d) as [e|[n d']]
  end; [reflexivity|].
  destruct (n =? 1); reflexivity.
Qed.

Lemma patch_succeeds_when_consistent c cmd uid now (s : SQLStore MemDB)
      panelInDB :
  consistent (db s) = true ->
  filter (panel_is uid (SignedInUser.OrgId (ReqContext.SignedInUser c)))
         (library_panel (db s)) = [panelInDB] ->
  snd (fst (patchLibraryPanel c cmd uid now s)) = None.
Proof.
  intros Hc Hfind.
  destruct (filter_singleton_matching _ _ _ Hfind) as (_ & Hin & Hmatch).
  unfold panel_is in Hmatch. apply andb_true_iff in Hmatch.
  destruct Hmatch as [Huid _]. apply String.eqb_eq in Huid.
  pose proof (consistent_key_selects_one _ _ Hc Hin) as Hone.
  pose proof (consistent_uid_not_shared _ _ Hc Hin) as Hfree.
  pose proof (patchLibraryPanel_run c cmd uid now s panelInDB
                (mem_find_eq _ _ _ _ Hfind)) as Hrun.
  cbv zeta in Hrun. rewrite Hrun. clear Hrun.
  cbn [sql_update_panel MemEngine]. unfold mem_update_panel.
  cbn [UID]. rewrite <- Huid, Hfree, andb_false_r, Hone. reflexivity.
Qed.

(** X16: in consistent tables a patch of a resolved panel succeeds, and a
    get by the same caller and UID then succeeds and reads the panel back
    with the key, UID, organization, creation time and creator it had,
    with the folder id and name of the command where those are not the
    default and the ones it had otherwise, with the model it had when the
    command carries none and the model of the command when that is not
    empty, and with the acting user as updater when the user id is not
    zero. *)
Theorem patch_then_get :
  forall c cmd uid now (s : SQLStore MemDB) panelInDB,
    let user := ReqContext.SignedInUser c in
    let orgID := SignedInUser.OrgId user in
    consistent (db s) = true ->
    filter (panel_is uid orgID) (library_panel (db s)) = [panelInDB] ->
    let r := patchLibraryPanel c cmd uid now s in
    let got := lps_getLibraryPanel c uid (snd r) in
    snd (fst r) = None
    /\ snd (fst got) = None
    /\ ID (fst (fst got)) = ID panelInDB
    /\ UID (fst (fst got)) = UID panelInDB
    /\ OrgID (fst (fst got)) = OrgID panelInDB
    /\ Created (fst (fst got)) = Created panelInDB
    /\ CreatedBy (fst (fst got)) = CreatedBy panelInDB
    /\ FolderID (fst (fst got))
       = (if patchLibraryPanelCommand.FolderID cmd =? 0
          then FolderID panelInDB
          else patchLibraryPanelCommand.FolderID cmd)
    /\ Name (fst (fst got))
       = (if (patchLibraryPanelCommand.Name cmd =? EmptyString)%string
          then Name panelInDB
          else patchLibraryPanelCommand.Name cmd)
    /\ (patchLibraryPanelCommand.Model cmd = None ->
        Model (fst (fst got)) = Model panelInDB)
    /\ (forall m,
           patchLibraryPanelCommand.Model cmd = Some m ->
           m <> EmptyString ->
           Model (fst (fst got)) = Some m)
    /\ (SignedInUser.UserId user <> 0 ->
        UpdatedBy (fst (fst got)) = SignedInUser.UserId user).
Proof.
  intros c cmd uid now s panelInDB user orgID Hc Hfind r got.
  pose proof (patch_succeeds_when_consistent c cmd uid now s panelInDB
                Hc Hfind) as Hok.
  fold r in Hok. split; [assumption|].
  assert (Hget : fst got = (fst (fst r), None)).
  { destruct (patchLibraryPanel_effect c cmd uid now s)
      as [(Herr & _)|(panel & before & after & Hfind' & _ & _ & Horg & Huid
                      & Hrows & Hdb)];
      [contradiction|].
    fold user in Hfind', Horg. fold orgID in Hfind', Horg.
    fold r in Horg, Huid, Hdb.
    rewrite Hfind in Hfind'. injection Hfind' as <-.
    destruct (filter_singleton_matching _ _ _ Hfind) as (_ & _ & Hmatch).
    pose proof Hfind as Hsplit. rewrite Hrows in Hsplit.
    destruct (filter_around _ _ _ _ Hmatch Hsplit) as [Hbefore Hafter].
    subst got.
    rewrite (lps_getLibraryPanel_run c uid (snd r) [fst (fst r)]);
      [reflexivity|].
    fold user. fold orgID. rewrite Hdb.
    cbn [sql_find_panel MemEngine]. unfold mem_find_panel.
    cbn [library_panel]. rewrite filter_app. cbn [filter].
    rewrite Hbefore, Hafter. unfold panel_is.
    rewrite Huid, Horg, String.eqb_refl, Z.eqb_refl. reflexivity. }
  rewrite (surjective_pairing (fst got)) in Hget.
  injection Hget as Hpanel Herr. rewrite Hpanel, Herr.
  split; [reflexivity|].
  destruct (filter_singleton_matching _ _ _ Hfind) as (_ & _ & Hmatch).
  unfold panel_is in Hmatch. apply andb_true_iff in Hmatch.
  destruct Hmatch as [Huid Horg].
  apply String.eqb_eq in Huid. apply Z.eqb_eq in Horg.
  subst r.
  rewrite (patchLibraryPanel_returns c cmd uid now s panelInDB Hfind).
  fold user. fold orgID.
  cbn [ID UID OrgID Created CreatedBy Updated UpdatedBy FolderID Name Model].
  repeat (split; [solve [reflexivity | congruence]|]).
  split; [intros ->; reflexivity|].
  split; [intros m -> _; reflexivity|].
  intros _. reflexivity.
Qed.

End InMemory.

Section Retry.
Import LibraryPanel.

(** X18: in consistent tables, repeating a patch with the same command
    and the same time reading changes nothing more: the second patch
    succeeds, returns the same panel and leaves the database as the first
    one left it. *)
Theorem patch_twice_is_patch_once :
  forall c cmd uid now (s : SQLStore MemDB) panelInDB,
    let orgID := SignedInUser.OrgId (ReqContext.SignedInUser c) in
    consistent (db s) = true ->
    filter (panel_is uid orgID) (library_panel (db s)) = [panelInDB] ->
    let r1 := patchLibraryPanel c cmd uid now s in
    let r2 := patchLibraryPanel c cmd uid now (snd r1) in
    snd (fst r1) = None
    /\ snd (fst r2) = None
    /\ fst (fst r2) = fst (fst r1)
    /\ db (snd r2) = db (snd r1).
Proof.
  intros c cmd uid now s panelInDB orgID Hc Hfind r1 r2.
  pose proof (patch_succeeds_when_consistent c cmd uid now s panelInDB
                Hc Hfind) as Hok1.
  fold r1 in Hok1.
  assert (Hc1 : consistent (db (snd r1)) = true).
  { destruct (operations_keep_consistency c uid s Hc)
      as (_ & _ & _ & _ & Hpatch). apply Hpatch. }
  assert (Hfind1 : filter (panel_is uid orgID) (library_panel (db (snd r1)))
                   = [fst (fst r1)]).
  { destruct (patchLibraryPanel_effect c cmd uid now s)
      as [(Herr & _)|(panel & before & after & Hfind' & _ & _ & Horg & Huid
                      & Hrows & Hdb)];
      [contradiction|].
    fold orgID in Hfind', Horg. fold r1 in Horg, Huid, Hdb.
    rewrite Hfind in Hfind'. injection Hfind' as <-.
    destruct (filter_singleton_matching _ _ _ Hfind) as (_ & _ & Hmatch).
    rewrite Hrows in Hfind.
    destruct (filter_around _ _ _ _ Hmatch Hfind) as [Hbefore Hafter].
    rewrite Hdb. cbn [library_panel]. rewrite filter_app. cbn [filter].
    rewrite Hbefore, Hafter. unfold panel_is.
    rewrite Huid, Horg, String.eqb_refl, Z.eqb_refl. reflexivity. }
  pose proof (patch_succeeds_when_consistent c cmd uid now (snd r1) _
                Hc1 Hfind1) as Hok2.
  fold r2 in Hok2.
  assert (Hsame : fst (fst r2) = fst (fst r1)).
  { subst r2.
    rewrite (patchLibraryPanel_returns c cmd uid now (snd r1) _ Hfind1).
    subst r1.
    rewrite (patchLibraryPanel_returns c cmd uid now s _ Hfind).
    cbn [ID OrgID FolderID UID Name Model Created CreatedBy Updated
         UpdatedBy].
    destruct (patchLibraryPanelCommand.FolderID cmd =? 0),
      (patchLibraryPanelCommand.Name cmd =? EmptyString)%string,
      (patchLibraryPanelCommand.Model cmd); reflexivity. }
  split; [assumption|]. split; [assumption|]. split; [assumption|].
  destruct (patchLibraryPanel_effect c cmd uid now (snd r1))
    as [(Herr & _)|(panel & before & after & Hfind' & _ & _ & _ & _
                    & Hrows & Hdb)];
    [contradiction|].
  fold orgID in Hfind'. fold r2 in Hdb.
  rewrite Hfind1 in Hfind'. injection Hfind' as <-.
  rewrite Hdb, Hsame, <- Hrows. apply mem_eta.
Qed.
End Retry.

(** ** The further properties at concrete stores *)

(** X5 at a store where two rows answer to ("cpu", 1). *)
Lemma duplicate_rows_block_operations_witness :
  sql_find_panel "cpu" 1 (db doubled)
  = inr [cpu_panel; LibraryPanel.with_ID 2 cpu_panel]
  /\ (2 <= 2)%nat
  /\ fst (connectDashboard alice "cpu" 100 20 doubled)
     = Some (errFoundPanels 2)
  /\ fst (patchLibraryPanel
            alice (patchLibraryPanelCommand.mk 0 "Processor" None)
            "cpu" 20 doubled)
     = (LibraryPanel.zero, Some (errFoundPanels 2)).
Proof.
  split; [reflexivity|]. split; [lia|].
  destruct (@duplicate_rows_block_operations
              MemDB MemEngine alice "cpu" doubled
              [cpu_panel; LibraryPanel.with_ID 2 cpu_panel]
              eq_refl (le_n 2))
    as (Hconnect & _ & Hpatch & _).
  split.
  - exact (f_equal fst (Hconnect 100 20)).
  - exact (f_equal fst
                   (Hpatch (patchLibraryPanelCommand.mk 0 "Processor" None)
                           20)).
Defined.

(** X6 at a concrete store: creating "disk" beside "cpu" and "ram". *)
Lemma create_then_get_witness :
  existsb (fun q => (LibraryPanel.UID q =? "disk")%string)
          (library_panel (db two_panels)) = false
  /\ (let r := createLibraryPanel
                 alice (createLibraryPanelCommand.mk 9 "Disk" None)
                 "disk" 20 21 two_panels in
      let got := lps_getLibraryPanel alice "disk" (snd r) in
      snd (fst r) = None
      /\ snd (fst got) = None
      /\ LibraryPanel.ID (fst (fst got)) = 3
      /\ LibraryPanel.Name (fst (fst got)) = "Disk").
Proof.
  split; [reflexivity|].
  destruct (create_then_get
              alice (createLibraryPanelCommand.mk 9 "Disk" None)
              "disk" 20 21 two_panels eq_refl)
    as (Herr & _ & Hgot & Hid & _ & _ & _ & Hname & _).
  split; [exact Herr|]. split; [exact Hgot|]. split; [exact Hid|exact Hname].
Defined.

(** X7 at a concrete store: creating "cpu" a second time. *)
Lemma create_collides_on_used_uid_witness :
  existsb (fun q => (LibraryPanel.UID q =? "cpu")%string)
          (library_panel (db two_panels)) = true
  /\ (let r := createLibraryPanel
                 alice (createLibraryPanelCommand.mk 9 "CPU again" None)
                 "cpu" 20 21 two_panels in
      snd (fst r) = Some errLibraryPanelAlreadyExists
      /\ db (snd r) = db two_panels).
Proof.
  split; [reflexivity|].
  destruct (create_collides_on_used_uid
              alice (createLibraryPanelCommand.mk 9 "CPU again" None)
              "cpu" 20 21 two_panels eq_refl)
    as (Herr & Hdb & _).
  split; [exact Herr|exact Hdb].
Defined.

(** X9 at a concrete store: connecting "ram" to dashboard 200 and
    disconnecting it again. *)
Lemma connect_then_disconnect_restores_witness :
  filter (panel_is "ram" 1) (library_panel (db two_panels)) = [ram_panel]
  /\ matching (connects 2 200) (library_panel_dashboard (db two_panels)) = 0
  /\ db (snd (disconnectDashboard
                alice "ram" 200
                (snd (connectDashboard alice "ram" 200 20 two_panels))))
     = db two_panels.
Proof.
  split; [reflexivity|]. split; [reflexivity|].
  exact (proj2 (proj2 (connect_then_disconnect_restores
                         alice "ram" 200 20 two_panels ram_panel
                         eq_refl eq_refl))).
Defined.

(** X10 at a concrete store: the dashboards of "cpu". *)
Lemma listing_is_the_set_of_connections_witness :
  filter (panel_is "cpu" 1) (library_panel (db two_panels)) = [cpu_panel]
  /\ consistent (db two_panels) = true
  /\ snd (fst (getConnectedDashboards alice "cpu" two_panels)) = None
  /\ NoDup (fst (fst (getConnectedDashboards alice "cpu" two_panels))).
Proof.
  split; [reflexivity|]. split; [reflexivity|].
  destruct (listing_is_the_set_of_connections
              alice "cpu" two_panels cpu_panel eq_refl)
    as (Herr & _ & Hnodup).
  split; [exact Herr|exact (Hnodup eq_refl)].
Defined.

(** X11 at a concrete store: connecting "cpu" to dashboard 300, and
    disconnecting it from dashboard 100. *)
Lemma connect_lists_and_disconnect_unlists_witness :
  filter (panel_is "cpu" 1) (library_panel (db two_panels)) = [cpu_panel]
  /\ In 300 (fst (fst (getConnectedDashboards
                         alice "cpu"
                         (snd (connectDashboard
                                 alice "cpu" 300 20 two_panels)))))
  /\ fst (disconnectDashboard alice "cpu" 100 two_panels) = None
  /\ ~ In 100 (fst (fst (getConnectedDashboards
                           alice "cpu"
                           (snd (disconnectDashboard
                                   alice "cpu" 100 two_panels))))).
Proof.
  split; [reflexivity|].
  destruct (connect_lists_and_disconnect_unlists
              alice "cpu" 300 20 two_panels cpu_panel eq_refl)
    as ((_ & Hlisted) & _).
  destruct (connect_lists_and_disconnect_unlists
              alice "cpu" 100 20 two_panels cpu_panel eq_refl)
    as (_ & Hunlisted).
  split; [apply Hlisted; left; reflexivity|]. split; [reflexivity|].
  intros Hin. apply (Hunlisted eq_refl 100) in Hin.
  destruct Hin as [Hne _]. apply Hne. reflexivity.
Defined.

(** X12 at a store where two rows answer to ("cpu", 1). *)
Lemma delete_refuses_duplicates_witness :
  2 <= matching (panel_is "cpu" 1) (library_panel (db doubled))
  /\ fst (deleteLibraryPanel alice "cpu" doubled)
     = Some errLibraryPanelNotFound
  /\ db (snd (deleteLibraryPanel alice "cpu" doubled)) = db doubled.
Proof.
  assert (Hmany : 2 <= matching (panel_is "cpu" 1)
                                (library_panel (db doubled)))
    by (vm_compute; discriminate).
  split; [exact Hmany|].
  exact (delete_refuses_duplicates alice "cpu" doubled Hmany).
Defined.

(** X13 at a concrete store: deleting "cpu", which dashboard 100 uses. *)
Lemma deleted_panel_is_gone_witness :
  filter (panel_is "cpu" 1) (library_panel (db two_panels)) = [cpu_panel]
  /\ (let s1 := snd (deleteLibraryPanel alice "cpu" two_panels) in
      fst (lps_getLibraryPanel alice "cpu" s1)
      = (LibraryPanel.zero, Some errLibraryPanelNotFound)
      /\ fst (deleteLibraryPanel alice "cpu" s1)
         = Some errLibraryPanelNotFound
      /\ filter (of_panel 1) (library_panel_dashboard (db s1))
         = [cpu_on_100]).
Proof.
  split; [reflexivity|].
  destruct (deleted_panel_is_gone alice "cpu" two_panels cpu_panel eq_refl)
    as (_ & Hget & Hagain & _ & _ & _ & _ & Horphans).
  split; [exact Hget|]. split; [exact Hagain|exact Horphans].
Defined.

(** X14 at a concrete store. *)
Lemma writers_keep_the_invariants_witness :
  consistent (db two_panels) = true
  /\ keys_assigned (db two_panels) = true
  /\ consistent (db (snd (connectDashboard alice "ram" 200 20 two_panels)))
     = true
  /\ keys_assigned (db (snd (deleteLibraryPanel alice "cpu" two_panels)))
     = true.
Proof.
  split; [reflexivity|]. split; [reflexivity|].
  destruct (writers_keep_the_invariants alice "ram" two_panels
                                        eq_refl eq_refl)
    as (_ & Hconnect & _).
  destruct (writers_keep_the_invariants alice "cpu" two_panels
                                        eq_refl eq_refl)
    as (_ & _ & Hdelete & _).
  split; [exact (proj1 (Hconnect 200 20))|exact (proj2 Hdelete)].
Defined.

(** X15 at a concrete store: "cpu" is deleted, leaving a connection row
    behind, and created again. *)
Lemma created_panel_starts_unconnected_witness :
  let s1 := snd (deleteLibraryPanel alice "cpu" two_panels) in
  let cmd := createLibraryPanelCommand.mk 7 "CPU" None in
  consistent (db s1) = true
  /\ keys_assigned (db s1) = true
  /\ existsb (fun q => (LibraryPanel.UID q =? "cpu")%string)
             (library_panel (db s1)) = false
  /\ library_panel_dashboard (db s1) = [cpu_on_100]
  /\ fst (getConnectedDashboards
            alice "cpu" (snd (createLibraryPanel alice cmd "cpu" 30 30 s1)))
     = ([], None).
Proof.
  intros s1 cmd.
  split; [reflexivity|]. split; [reflexivity|]. split; [reflexivity|].
  split; [reflexivity|].
  exact (proj1 (proj2 (proj2 (created_panel_starts_unconnected
                                alice cmd "cpu" 30 30 s1
                                eq_refl eq_refl eq_refl)))).
Defined.

(** X16 at a concrete store: renaming "cpu" and reading it back. *)
Lemma patch_then_get_witness :
  consistent (db two_panels) = true
  /\ filter (panel_is "cpu" 1) (library_panel (db two_panels)) = [cpu_panel]
  /\ (let r := patchLibraryPanel
                 alice (patchLibraryPanelCommand.mk 0 "Processor" None)
                 "cpu" 20 two_panels in
      let got := lps_getLibraryPanel alice "cpu" (snd r) in
      snd (fst got) = None
      /\ LibraryPanel.ID (fst (fst got)) = 1
      /\ LibraryPanel.FolderID (fst (fst got)) = 7
      /\ LibraryPanel.Name (fst (fst got)) = "Processor"
      /\ LibraryPanel.Model (fst (fst got)) = Some "{type:graph}").
Proof.
  split; [reflexivity|]. split; [reflexivity|].
  destruct (patch_then_get
              alice (patchLibraryPanelCommand.mk 0 "Processor" None)
              "cpu" 20 two_panels cpu_panel eq_refl eq_refl)
    as (_ & Hgot & Hid & _ & _ & _ & _ & Hfolder & Hname & Hmodel & _).
  split; [exact Hgot|]. split; [exact Hid|]. split; [exact Hfolder|].
  split; [exact Hname|exact (Hmodel eq_refl)].
Defined.

(** A panel of another organization is out of reach: the caller of
    organization 1 can neither read, patch nor delete the panel "disk" of
    organization 2, and does not see it in the listing. *)
Example other_org_panel_is_out_of_reach :
  fst (lps_getLibraryPanel alice "disk" two_orgs)
  = (LibraryPanel.zero, Some errLibraryPanelNotFound)
  /\ fst (deleteLibraryPanel alice "disk" two_orgs)
     = Some errLibraryPanelNotFound
  /\ db (snd (deleteLibraryPanel alice "disk" two_orgs)) = db two_orgs
  /\ fst (fst (getAllLibraryPanels alice two_orgs)) = [cpu_panel; ram_panel].
Proof. repeat split. Qed.

(** X18 at a concrete store: renaming "cpu" twice at the same instant. *)
Lemma patch_twice_is_patch_once_witness :
  consistent (db two_panels) = true
  /\ filter (panel_is "cpu" 1) (library_panel (db two_panels)) = [cpu_panel]
  /\ (let cmd := patchLibraryPanelCommand.mk 0 "Processor" None in
      let r1 := patchLibraryPanel alice cmd "cpu" 20 two_panels in
      let r2 := patchLibraryPanel alice cmd "cpu" 20 (snd r1) in
      fst (fst r2) = fst (fst r1) /\ db (snd r2) = db (snd r1)).
Proof.
  split; [reflexivity|]. split; [reflexivity|].
  exact (proj2 (proj2 (patch_twice_is_patch_once
                         alice (patchLibraryPanelCommand.mk 0 "Processor" None)
                         "cpu" 20 two_panels cpu_panel eq_refl eq_refl))).
Defined.
